(** * The session-end journal pipeline of [backend/main.py]

    A shallow embedding of [run_journal_pipeline] and [get_journal] and of
    the module-level [journal_cache] they share, with the properties of the
    pipeline proved about it.  The other handlers of [backend/main.py],
    the TrOCR path of [backend/ocr/ocr.py] and [backend/download_llama.py]
    follow, on the same state and the same conventions.

    Conventions of the embedding.
    - A Python [str] is a Rocq [string]; one [ascii] stands for one
      character of the Python string.
    - A Python [dict] with string keys is a [gmap string _]; the cache is a
      dict of dicts.
    - The collaborators ([process_session], [StorageDB], [search_similar],
      [llm_service]) live outside this module.  They are taken as
      parameters: each one is a function on an abstract world [W] that
      either returns a value or raises.  An [import] placed right before a
      call, and the [StorageDB()] constructor, are folded into the call
      that follows them: their failure is a failure of that call.
    - [exc] stands for an instance of Python's [Exception], the class named
      in the [except] clause of [run_journal_pipeline].
    - [print] writes to standard output only and is left out.
    - [run_journal_pipeline] is an [async def] without any [await]; once
      started, it runs to its end without interleaving, so one run is one
      state transformer. *)

From Stdlib Require Import String Ascii Lia QArith DecimalString DecimalNat.
From stdpp Require Import base strings list gmap fin_maps.

Local Open Scope string_scope.
Local Open Scope nat_scope.

(** ** Python values that appear in the cache and in responses *)

(** The values stored under the keys of an entry: a [str] or [None]. *)
Inductive pyval : Type :=
| PyStr (s : string)
| PyNone.

#[global] Instance pyval_eq_dec : EqDecision pyval.
Proof. solve_decision. Defined.

(** A cache entry and a poll response are dicts from field name to value. *)
Abbreviation pydict := (gmap string pyval).

(** [journal_cache = {}]: session id to entry. *)
Abbreviation cache := (gmap string (gmap string pyval)).

(** An instance of [Exception]; [str_of e] is [str(e)]. *)
Record exc : Type := Exception { str_of : string }.

(** The outcome of a call: a value, or a raised exception. *)
Inductive result (A : Type) : Type :=
| Ok (a : A)
| Raise (e : exc).
Arguments Ok {A} a.
Arguments Raise {A} e.

(** ** Strings *)

Definition nl : string := String "010"%char EmptyString.

(** Truth value of a [str] in a condition: false exactly for [""]. *)
Definition truthy (s : string) : bool :=
  match s with
  | EmptyString => false
  | String _ _ => true
  end.

(** [s[:stop]]: the characters before index [stop], clipped to the length
    of [s]. *)
Fixpoint slice_to (stop : nat) (s : string) : string :=
  match stop, s with
  | O, _ => EmptyString
  | S _, EmptyString => EmptyString
  | S stop', String c s' => String c (slice_to stop' s')
  end.

(** [sep.join(items)]. *)
Fixpoint join (sep : string) (items : list string) : string :=
  match items with
  | [] => EmptyString
  | x :: rest =>
      match rest with
      | [] => x
      | _ :: _ => x +:+ sep +:+ join sep rest
      end
  end.

(** [needle] occurs in [hay] as a contiguous run of characters. *)
Definition contains (needle hay : string) : Prop :=
  exists pre post, hay = pre +:+ needle +:+ post.

(** ** Raw events and the session document *)

(** A row returned by [get_raw_events_by_session]; the pipeline reads the
    keys ["source"] and ["text"] only. *)
Record event : Type := Event { source : string; text : string }.

(** [event["source"] in ("asr", "ocr")]. *)
Definition in_asr_ocr (src : string) : bool :=
  String.eqb src "asr" || String.eqb src "ocr".

(** The generator [event["text"] for event in raw_events if ...]. *)
Fixpoint doc_texts (raw_events : list event) : list string :=
  match raw_events with
  | [] => []
  | ev :: rest =>
      if in_asr_ocr (source ev) then text ev :: doc_texts rest
      else doc_texts rest
  end.

(** [full_doc = "\n".join(...)]. *)
Definition full_doc (raw_events : list event) : string :=
  join nl (doc_texts raw_events).

(** The session document as the specification words it: the texts of the
    events whose source is [ocr] or [asr], in stored order, joined by
    newlines. *)
Definition session_document_spec (events : list event) : string :=
  String.concat nl
    (text <$> filter (fun ev => source ev = "ocr" \/ source ev = "asr") events).

(** ** Context selection, prompt and displayed memory *)

(** Step 4 of the pipeline: [remedy_context] starts as [""] and, when
    [similar_results] is non-empty, becomes [similar_results[0][1]]. *)
Definition remedy_context {score : Type}
    (similar_results : list (score * string)) : string :=
  match similar_results with
  | [] => ""
  | top_result :: _ => snd top_result
  end.

(** The indentation the template lines carry inside the source file. *)
Definition ind : string := "            ".

(** The f-string of the [if remedy_context:] branch. *)
Definition prompt_with_context (full_doc remedy_context : string) : string :=
  nl +:+
  ind +:+ "Current session:" +:+ nl +:+
  ind +:+ "```" +:+ full_doc +:+ "```" +:+ nl +:+
  ind +:+ nl +:+
  ind +:+ "This is the most relevant past experience that could be helpful for this results:" +:+ nl +:+
  ind +:+ "```" +:+ remedy_context +:+ "```" +:+ nl +:+
  ind +:+ nl +:+
  ind +:+ "Task: Analyze the current session and provide:" +:+ nl +:+
  ind +:+ "1) A brief summary of the current situation and emotions (1-2 sentences)" +:+ nl +:+
  ind +:+ "2) Actionable guidance that draws insight from the related past experience" +:+ nl +:+
  ind +:+ nl +:+
  ind +:+ "If the past experience contains a successful approach or solution, reference it specifically." +:+ nl +:+
  ind +:+ "Keep response under 120 words and make it personal and actionable." +:+ nl +:+
  ind.

(** The f-string of the [else] branch. *)
Definition prompt_no_context (full_doc : string) : string :=
  nl +:+
  ind +:+ "Current session:" +:+ nl +:+
  ind +:+ "```" +:+ full_doc +:+ "```" +:+ nl +:+
  ind +:+ nl +:+
  ind +:+ "Task: Analyze this session and provide:" +:+ nl +:+
  ind +:+ "1) A brief summary of the current situation and emotions (1-2 sentences)  " +:+ nl +:+
  ind +:+ "2) Thoughtful, actionable guidance based on the content" +:+ nl +:+
  ind +:+ nl +:+
  ind +:+ "Keep response under 120 words and make it personal and actionable." +:+ nl +:+
  ind.

(** Step 5: the prompt handed to the generation backend. *)
Definition prompt (full_doc remedy_context : string) : string :=
  if truthy remedy_context then prompt_with_context full_doc remedy_context
  else prompt_no_context full_doc.

(** [remedy_context[:200] if remedy_context else None]. *)
Definition related_memory (remedy_context : string) : pyval :=
  if truthy remedy_context then PyStr (slice_to 200 remedy_context)
  else PyNone.

(** The with-context template as the specification prints it. *)
Definition with_context_template_spec (document context : string) : string :=
  "Current session: `" +:+ document +:+
  "` — This is the most relevant past experience that could be helpful for this result: `" +:+
  context +:+
  "` — Task: (1) summarize current situation/emotion in 1-2 sentences, (2) give actionable guidance drawing on the related past experience, referencing a specific past solution if one exists. Keep response under 120 words, personal and actionable.".

(** ** State, exceptions and the collaborators *)

Section Pipeline.

Context {W score : Type}.

(** What a run can touch: the collaborators' world (event store, index,
    model) and the module-level [journal_cache]. *)
Record state : Type := State { world : W; journal_cache : cache }.

(** A computation reads and writes the state and returns or raises.  The
    state reached when an exception is raised is kept: Python does not roll
    back. *)
Definition M (A : Type) : Type := state -> result A * state.

Definition ret {A : Type} (a : A) : M A := fun st => (Ok a, st).

Definition bind {A B : Type} (m : M A) (k : A -> M B) : M B :=
  fun st =>
    match m st with
    | (Ok a, st') => k a st'
    | (Raise e, st') => (Raise e, st')
    end.

Notation "'let*' x := m 'in' k" := (bind m (fun x => k))
  (at level 10, x name, m at level 100, k at level 200).

(** [try: body except Exception as e: handler(e)]. *)
Definition try_except {A : Type} (body : M A) (handler : exc -> M A) : M A :=
  fun st =>
    match body st with
    | (Ok a, st') => (Ok a, st')
    | (Raise e, st') => handler e st'
    end.

(** A call into a collaborator: it acts on the world and never on the
    cache, which is private to this module. *)
Definition call {A : Type} (f : W -> result A * W) : M A :=
  fun st =>
    match f (world st) with
    | (r, w') => (r, State w' (journal_cache st))
    end.

(** [journal_cache[session_id] = entry]. *)
Definition cache_set (session_id : string) (entry : pydict) : M unit :=
  fun st =>
    (Ok tt, State (world st) (<[session_id := entry]> (journal_cache st))).

(** [journal_cache.get(session_id)]: [None] when the key is missing. *)
Definition cache_get (session_id : string) : M (option pydict) :=
  fun st => (Ok (journal_cache st !! session_id), st).

(** The collaborators of the pipeline.  [process_session] returns node ids
    (only counted, for the log); the history given to [generate_response]
    is a list of dicts. *)
Record collaborators : Type := Collaborators {
  process_session : string -> W -> result (list string) * W;
  get_raw_events_by_session : string -> W -> result (list event) * W;
  search_similar : string -> nat -> W -> result (list (score * string)) * W;
  generate_response : string -> list pydict -> W -> result string * W
}.

(** ** The cache entries the pipeline writes *)

(** [{"summary_action": response, "related_memory": ...}]. *)
Definition success_entry (response : string) (memory : pyval) : pydict :=
  <["related_memory" := memory]> (<["summary_action" := PyStr response]> ∅).

(** [{"error": str(e)}]. *)
Definition error_entry (e : exc) : pydict :=
  <["error" := PyStr (str_of e)]> ∅.

(** ** [run_journal_pipeline] *)

(** The body of the [try] block, steps 1 to 6. *)
Definition pipeline_body (env : collaborators) (session_id : string) : M unit :=
  let* node_ids := call (process_session env session_id) in
  let* raw_events := call (get_raw_events_by_session env session_id) in
  let full_doc := full_doc raw_events in
  let* similar_results := call (search_similar env full_doc 3) in
  let remedy_context := remedy_context similar_results in
  let prompt := prompt full_doc remedy_context in
  let* response := call (generate_response env prompt []) in
  cache_set session_id (success_entry response (related_memory remedy_context)).

Definition run_journal_pipeline (env : collaborators) (session_id : string)
    : M unit :=
  try_except (pipeline_body env session_id)
    (fun e => cache_set session_id (error_entry e)).

(** ** [get_journal] *)

(** Truth value of [entry] in [if entry:]: [None] and the empty dict are
    false. *)
Definition entry_truthy (entry : option pydict) : bool :=
  match entry with
  | None => false
  | Some d => negb (bool_decide (d = ∅))
  end.

(** [{"status": "processing", "session_id": session_id}]. *)
Definition processing_response (session_id : string) : pydict :=
  <["session_id" := PyStr session_id]> (<["status" := PyStr "processing"]> ∅).

(** [{"status": "done", "session_id": session_id, **entry}]: the keys of
    [entry] are set last and win over the two set before them. *)
Definition done_response (session_id : string) (entry : pydict) : pydict :=
  entry ∪ <["session_id" := PyStr session_id]> (<["status" := PyStr "done"]> ∅).

Definition get_journal (session_id : string) : M pydict :=
  let* entry := cache_get session_id in
  if entry_truthy entry then ret (done_response session_id (default ∅ entry))
  else ret (processing_response session_id).

(** [n] polls of [session_id] in a row, the responses thrown away. *)
Fixpoint poll_times (n : nat) (session_id : string) : M unit :=
  match n with
  | O => ret tt
  | S n' => let* _ := get_journal session_id in poll_times n' session_id
  end.

(** ** Cache states the program can be in *)

(** The cache starts empty and [run_journal_pipeline] is its only writer. *)
Inductive reachable : cache -> Prop :=
| reachable_init : reachable ∅
| reachable_run (env : collaborators) (session_id : string) (st : state) :
    reachable (journal_cache st) ->
    reachable (journal_cache (snd (run_journal_pipeline env session_id st))).

End Pipeline.

Arguments state : clear implicits.
Arguments M : clear implicits.
Arguments collaborators : clear implicits.
Arguments reachable : clear implicits.

(** The two shapes an entry written by the pipeline has. *)
Definition entry_shape (entry : pydict) : Prop :=
  (exists (response : string) (memory : pyval),
      entry = success_entry response memory) \/
  (exists e : exc, entry = error_entry e).

(** [env] with its similarity search replaced by [search]. *)
Definition with_search {W score : Type} (env : collaborators W score)
    (search : string -> nat -> W -> result (list (score * string)) * W)
    : collaborators W score :=
  Collaborators (process_session env) (get_raw_events_by_session env)
    search (generate_response env).

(** ** Concrete collaborators for the examples

    The world is the list of prompts the generation backend has been
    given, newest first; scores are rationals. *)

(** One spoken and one captured event around a keystroke event; one past
    session is found; the backend answers. *)
Definition demo_env : collaborators (list string) Q :=
  Collaborators
    (fun _ w => (Ok ["node-1"; "node-2"], w))
    (fun _ w => (Ok [Event "asr" "I bombed the interview";
                     Event "keyboard" "ctrl-c";
                     Event "ocr" "Rejection email"], w))
    (fun _ _ w => (Ok [((8 # 10)%Q, "Last time I practiced with mock interviews and it went better");
                       ((9 # 10)%Q, "Unrelated")], w))
    (fun p _ w => (Ok "Practice again.", p :: w)).

(** The same, with a generation backend that raises. *)
Definition failing_env : collaborators (list string) Q :=
  Collaborators
    (process_session demo_env) (get_raw_events_by_session demo_env)
    (search_similar demo_env)
    (fun p _ w => (Raise (Exception "model not loaded"), p :: w)).

Definition demo_state : state (list string) := State [] ∅.

(** ** More of Python's [str] *)

(** [str(n)] for a non-negative [int]: its decimal digits. *)
Definition str_of_nat (n : nat) : string :=
  NilEmpty.string_of_uint (Nat.to_uint n).

(** [s.endswith(suffix)]: [suffix] is [s] or the end of a tail of [s]. *)
Fixpoint endswith (s suffix : string) : bool :=
  String.eqb s suffix ||
  match s with
  | EmptyString => false
  | String _ s' => endswith s' suffix
  end.

(** The characters [str.strip()] removes, among the first 256 code
    points: tab to carriage return, the four separators 28 to 31, space,
    next line (133) and no-break space (160). *)
Definition is_space (c : ascii) : bool :=
  let n := N_of_ascii c in
  ((9 <=? n) && (n <=? 13) || (28 <=? n) && (n <=? 32) ||
   (n =? 133) || (n =? 160))%N.

Fixpoint lstrip (s : string) : string :=
  match s with
  | EmptyString => EmptyString
  | String c s' => if is_space c then lstrip s' else s
  end.

Fixpoint rstrip (s : string) : string :=
  match s with
  | EmptyString => EmptyString
  | String c s' =>
      match rstrip s' with
      | EmptyString => if is_space c then EmptyString else String c EmptyString
      | String _ _ as r => String c r
      end
  end.

(** [s] is empty or starts with a character that is not white space. *)
Definition starts_clean (s : string) : bool :=
  match s with
  | EmptyString => true
  | String c _ => negb (is_space c)
  end.

(** [s.strip()]. *)
Definition strip (s : string) : string := rstrip (lstrip s).

(** [c.lower()] among the first 256 code points: [A] to [Z] and the
    accented capitals 192 to 222, the multiplication sign 215 apart. *)
Definition lower_char (c : ascii) : ascii :=
  let n := N_of_ascii c in
  if ((65 <=? n) && (n <=? 90) ||
      (192 <=? n) && (n <=? 222) && negb (n =? 215))%N
  then ascii_of_N (n + 32)
  else c.

(** [s.lower()]. *)
Fixpoint lower (s : string) : string :=
  match s with
  | EmptyString => EmptyString
  | String c s' => String (lower_char c) (lower s')
  end.

(** ** The other handlers of [backend/main.py]

    The [import] statements at the head of [asr] and of [capture] are
    taken to succeed. *)

Section Handlers.

Context {W score : Type}.

Notation "'let*' x := m 'in' k" := (bind m (fun x => k))
  (at level 10, x name, m at level 100, k at level 200).

(** *** [end_session] *)

(** The server between two handler calls: the state, and the coroutines
    the event loop has been given and has not started yet, oldest first.
    [asyncio.create_task] appends to that queue and returns at once; a
    coroutine without [await] then runs in one piece when its turn comes,
    and what it raises stays in its task object. *)
Record server : Type := Server {
  store : state W;
  ready : list (M W unit)
}.

Definition end_session (env : collaborators W score) (session_id : string)
    (srv : server) : pydict * server :=
  (processing_response session_id,
   Server (store srv) (ready srv ++ [run_journal_pipeline env session_id])).

(** The loop runs what is in its queue, in order. *)
Definition run_ready (srv : server) : server :=
  Server (fold_left (fun st task => snd (task st)) (ready srv) (store srv)) [].

(** *** [query_llm] *)

Definition query_llm (env : collaborators W score)
    (session_id user_input : string) (context : list pydict) : M W pydict :=
  try_except
    (let* response := call (generate_response env user_input context) in
     ret (<["session_id" := PyStr session_id]>
            (<["response" := PyStr response]> ∅)))
    (fun e =>
       ret (<["session_id" := PyStr session_id]>
              (<["error" := PyStr (str_of e)]> ∅))).

(** *** [store_event] *)

(** [f"event_{request.session_id}_{len(request.text)}"]. *)
Definition event_id (session_id text : string) : string :=
  "event_" +:+ session_id +:+ "_" +:+ str_of_nat (String.length text).

(** Nothing in the [try] block can raise for a request that passed
    validation; the handler is kept as written. *)
Definition store_event (session_id source text : string) (metadata : pydict)
    : M W pydict :=
  try_except
    (ret (<["message" := PyStr "Event stored (mock mode)"]>
            (<["status" := PyStr "stored"]>
               (<["event_id" := PyStr (event_id session_id text)]> ∅))))
    (fun e =>
       ret (<["session_id" := PyStr session_id]>
              (<["error" := PyStr (str_of e)]> ∅))).

(** *** [asr] *)

(** A piece of a transcription; the handler reads its ["text"]. *)
Record segment : Type := Segment { segment_text : string }.

(** What [asr] uses of [os] and of [asr_final].  [recordings_dir] is
    [~/EdgeElite/recordings] as [os.path] spells it on the machine. *)
Record audio_env : Type := AudioEnv {
  recordings_dir : string;
  path_join : string -> string -> string;
  path_exists : string -> W -> bool;
  listdir : string -> W -> result (list string) * W;
  getmtime : string -> W -> result Q * W;
  process_audio : string -> W -> result (list segment) * W
}.

(** [list.sort(key=..., reverse=True)] first computes the key of every
    element, in order, and stops at the first key that raises. *)
Fixpoint with_mtime (aenv : audio_env) (files : list string)
    : M W (list (Q * string)) :=
  match files with
  | [] => ret []
  | x :: rest =>
      let* k := call (getmtime aenv (path_join aenv (recordings_dir aenv) x)) in
      let* ks := with_mtime aenv rest in
      ret ((k, x) :: ks)
  end.

(** Then it sorts by decreasing key and keeps elements of equal key in
    the order they had. *)
Fixpoint insert_desc (kx : Q * string) (sorted : list (Q * string))
    : list (Q * string) :=
  match sorted with
  | [] => [kx]
  | ky :: rest =>
      if Qle_bool (fst ky) (fst kx) then kx :: ky :: rest
      else ky :: insert_desc kx rest
  end.

Definition sort_desc (keyed : list (Q * string)) : list (Q * string) :=
  foldr insert_desc [] keyed.

Definition asr (aenv : audio_env) : M W pydict :=
  fun st =>
    if path_exists aenv (recordings_dir aenv) (world st) then
      (let* names := call (listdir aenv (recordings_dir aenv)) in
       let wav_files := List.filter (fun f => endswith f ".wav") names in
       match wav_files with
       | _ :: _ =>
           let* keyed := with_mtime aenv wav_files in
           match sort_desc keyed with
           | (_, newest) :: _ =>
               let latest_audio_file :=
                 path_join aenv (recordings_dir aenv) newest in
               let* result := call (process_audio aenv latest_audio_file) in
               let msg := strip (join " " (segment_text <$> result)) in
               ret (<["message" := PyStr msg]> ∅)
           | [] => fun st' => (Raise (Exception "list index out of range"), st')
           end
       | [] => ret (<["message" := PyStr "No audio file found"]> ∅)
       end) st
    else ret (<["message" := PyStr "Recordings directory not found"]> ∅) st.

(** *** [capture] *)

(** What [capture] uses: [process_image] of the [ocr] package, a function
    of this repository, and two collaborators, the clock and
    [store_raw_ocr_event]. *)
Record capture_env : Type := CaptureEnv {
  process_image : string -> M W pyval;
  time : W -> result Q * W;
  store_raw_ocr_event :
    string -> string -> Q -> pyval -> pydict -> W -> result unit * W
}.

Definition capture (cenv : capture_env) (filename session_id : string)
    : M W pydict :=
  let* result := process_image cenv filename in
  let* ts := call (time cenv) in
  let* _ := call (store_raw_ocr_event cenv session_id "ocr" ts result
                    (<["image_file" := PyStr filename]> ∅)) in
  ret (<["message" := PyStr ("Processed " +:+ filename)]> ∅).

End Handlers.

Arguments server : clear implicits.
Arguments audio_env : clear implicits.
Arguments capture_env : clear implicits.

(** ** [backend/ocr/ocr.py]: the TrOCR path *)

Module Ocr.
Section Ocr.

Context {W session app : Type}.

Notation "'let*' x := m 'in' k" := (bind m (fun x => k))
  (at level 10, x name, m at level 100, k at level 200).

(** ONNX Runtime and [TrocrApp]; the two model paths are the files under
    [models/ocr] next to the module.  The session options are part of the
    call that builds a session; the printing of the inputs and outputs of
    the sessions is left out. *)
Record ort_env : Type := OrtEnv {
  encoder_model_path : string;
  decoder_model_path : string;
  InferenceSession : string -> W -> result session * W;
  TrocrApp : session -> session -> W -> result app * W
}.

Definition setup_trocr_sessions (ort : ort_env) : M W (session * session) :=
  let* encoder_session := call (InferenceSession ort (encoder_model_path ort)) in
  let* decoder_session := call (InferenceSession ort (decoder_model_path ort)) in
  ret (encoder_session, decoder_session).

(** The function ends after building [trocr]: it returns [None]. *)
Definition run_trocr (ort : ort_env) (image_path : string) : M W pyval :=
  let* sessions := setup_trocr_sessions ort in
  let* trocr := call (TrocrApp ort (fst sessions) (snd sessions)) in
  ret PyNone.

(** No [return] either: the value of [run_trocr] is dropped. *)
Definition process_image (ort : ort_env) (image_path : string) : M W pyval :=
  let* _ := run_trocr ort image_path in
  ret PyNone.

End Ocr.
Arguments ort_env : clear implicits.
End Ocr.

(** ** [backend/download_llama.py] *)

Module DownloadLlama.
Section DownloadLlama.

Context {W tokenizer model : Type}.

Notation "'let*' x := m 'in' k" := (bind m (fun x => k))
  (at level 10, x name, m at level 100, k at level 200).

(** The file system, the Hugging Face hub and the terminal.  The first
    two loaders are the calls of [download_llama_with_hub], with a cache
    directory; the [probe_] ones are the calls of [test_llama_download].
    The [import] of [transformers] is part of the first loader call that
    follows it. *)
Record hub_env : Type := HubEnv {
  mkdir_models : W -> result unit * W;
  model_path_exists : W -> result bool * W;
  login : W -> result unit * W;
  tokenizer_from_pretrained : W -> result tokenizer * W;
  tokenizer_save_pretrained : tokenizer -> W -> result unit * W;
  model_from_pretrained : W -> result model * W;
  model_save_pretrained : model -> W -> result unit * W;
  probe_tokenizer : W -> result tokenizer * W;
  probe_model : W -> result model * W;
  input : W -> result string * W
}.

(** [mkdir] and [exists] stand before the [try] block: what they raise
    leaves the function.  The two [except] clauses print different lines
    and both return [False]. *)
Definition download_llama_with_hub (hub : hub_env) : M W bool :=
  let* _ := call (mkdir_models hub) in
  let* present := call (model_path_exists hub) in
  if present then ret true
  else
    try_except
      (let* _ := call (login hub) in
       let* tokenizer := call (tokenizer_from_pretrained hub) in
       let* _ := call (tokenizer_save_pretrained hub tokenizer) in
       let* model := call (model_from_pretrained hub) in
       let* _ := call (model_save_pretrained hub model) in
       ret true)
      (fun e => ret false).

Definition test_llama_download (hub : hub_env) : M W bool :=
  try_except
    (let* tokenizer := call (probe_tokenizer hub) in
     let* model := call (probe_model hub) in
     ret true)
    (fun e => ret false).

(** [response in ['y', 'yes']]. *)
Definition is_yes (response : string) : bool :=
  String.eqb response "y" || String.eqb response "yes".

Definition main (hub : hub_env) : M W unit :=
  let* accessible := test_llama_download hub in
  if accessible then
    let* line := call (input hub) in
    let response := strip (lower line) in
    if is_yes response then
      let* success := download_llama_with_hub hub in
      ret tt
    else ret tt
  else ret tt.

End DownloadLlama.
Arguments hub_env : clear implicits.
End DownloadLlama.

(** ** Concrete collaborators for the examples of the other handlers

    As before the world is a list of strings, here the names of the
    external calls made, newest first. *)

(** A directory with two recordings and a text file; a file is the newer
    the longer its path is. *)
Definition demo_audio_env : audio_env (list string) :=
  AudioEnv "/home/u/EdgeElite/recordings"
    (fun dir name => dir +:+ "/" +:+ name)
    (fun _ _ => true)
    (fun _ w => (Ok ["memo.wav"; "notes.txt"; "standup-monday.wav"], w))
    (fun path w => (Ok (inject_Z (Z.of_nat (String.length path))), w))
    (fun path w => (Ok [Segment " hello"; Segment "world "], path :: w)).

Definition demo_mtime (name : string) : Q :=
  inject_Z (Z.of_nat
              (String.length ("/home/u/EdgeElite/recordings" +:+ "/" +:+ name))).

(** ONNX Runtime with both model files in place. *)
Definition demo_ort : Ocr.ort_env (list string) unit unit :=
  Ocr.OrtEnv "models/ocr/trocr-trocrencoder.onnx"
    "models/ocr/trocr-trocrdecoder.onnx"
    (fun path w => (Ok tt, path :: w))
    (fun _ _ w => (Ok tt, "TrocrApp" :: w)).

(** ONNX Runtime without the decoder model file. *)
Definition broken_ort : Ocr.ort_env (list string) unit unit :=
  Ocr.OrtEnv "models/ocr/trocr-trocrencoder.onnx"
    "models/ocr/trocr-trocrdecoder.onnx"
    (fun path w =>
       if String.eqb path "models/ocr/trocr-trocrencoder.onnx"
       then (Ok tt, path :: w)
       else (Raise (Exception "file not found"), path :: w))
    (fun _ _ w => (Ok tt, "TrocrApp" :: w)).

Definition broken_capture_env : capture_env (list string) :=
  CaptureEnv (Ocr.process_image broken_ort)
    (fun w => (Ok (inject_Z 1752357600), w))
    (fun _ _ _ _ _ w => (Ok tt, "store_raw_ocr_event" :: w)).

(** A hub where the model directory is missing and the download of the
    model weights fails after the tokenizer has been saved. *)
Definition demo_hub : DownloadLlama.hub_env (list string) unit unit :=
  DownloadLlama.HubEnv
    (fun w => (Ok tt, "mkdir" :: w))
    (fun w => (Ok (bool_decide ("tokenizer.save_pretrained" ∈ w)), w))
    (fun w => (Ok tt, "login" :: w))
    (fun w => (Ok tt, "tokenizer" :: w))
    (fun _ w => (Ok tt, "tokenizer.save_pretrained" :: w))
    (fun w => (Raise (Exception "connection reset"), "model" :: w))
    (fun _ w => (Ok tt, "model.save_pretrained" :: w))
    (fun w => (Ok tt, "probe tokenizer" :: w))
    (fun w => (Ok tt, "probe model" :: w))
    (fun w => (Ok "  YES ", "input" :: w)).

(** ** Strings: auxiliary facts *)

Lemma append_cons (c : ascii) (s1 s2 : string) :
  String c s1 +:+ s2 = String c (s1 +:+ s2).
Proof. reflexivity. Qed.

Lemma append_nil_r (s : string) : s +:+ "" = s.
Proof.
  induction s as [|c s IH]; [reflexivity |].
  now rewrite append_cons, IH.
Qed.

Lemma append_assoc (s1 s2 s3 : string) :
  (s1 +:+ s2) +:+ s3 = s1 +:+ (s2 +:+ s3).
Proof.
  induction s1 as [|c s1 IH]; [reflexivity |].
  now rewrite !append_cons, IH.
Qed.

Lemma length_append (s1 s2 : string) :
  String.length (s1 +:+ s2) = String.length s1 + String.length s2.
Proof.
  induction s1 as [|c s1 IH]; [reflexivity |].
  rewrite append_cons. simpl. now rewrite IH.
Qed.

Lemma truthy_true_iff (s : string) : truthy s = true <-> s <> "".
Proof. destruct s; simpl; split; congruence. Qed.

Lemma truthy_false_iff (s : string) : truthy s = false <-> s = "".
Proof. destruct s; simpl; split; congruence. Qed.

Lemma length_slice_to (n : nat) (s : string) :
  String.length (slice_to n s) = Nat.min n (String.length s).
Proof.
  revert s; induction n as [|n IH]; intros [|c s]; simpl; auto.
Qed.

Lemma slice_to_prefix (n : nat) (s : string) :
  exists rest, s = slice_to n s +:+ rest.
Proof.
  revert s; induction n as [|n IH]; intros s.
  - exists s. reflexivity.
  - destruct s as [|c s]; simpl.
    + exists "". reflexivity.
    + destruct (IH s) as [rest Hrest]. exists rest.
      rewrite append_cons. now rewrite <- Hrest.
Qed.

Lemma slice_to_all (n : nat) (s : string) :
  String.length s <= n -> slice_to n s = s.
Proof.
  revert s; induction n as [|n IH]; intros [|c s] Hlen; simpl in *;
    try reflexivity; try lia.
  f_equal. apply IH. lia.
Qed.

Lemma contains_intro (pre needle post : string) :
  contains needle (pre +:+ needle +:+ post).
Proof. exists pre, post. reflexivity. Qed.

(** ** The session document: auxiliary facts *)

Lemma join_concat (sep : string) (items : list string) :
  join sep items = String.concat sep items.
Proof.
  induction items as [|x rest IH]; [reflexivity |].
  destruct rest as [|y rest]; [reflexivity |].
  change (join sep (x :: y :: rest)) with (x +:+ sep +:+ join sep (y :: rest)).
  now rewrite IH.
Qed.

Lemma in_asr_ocr_true (src : string) :
  in_asr_ocr src = true <-> src = "ocr" \/ src = "asr".
Proof.
  unfold in_asr_ocr. rewrite orb_true_iff, !String.eqb_eq. tauto.
Qed.

Lemma doc_texts_filter (events : list event) :
  doc_texts events =
  text <$> filter (fun ev => source ev = "ocr" \/ source ev = "asr") events.
Proof.
  induction events as [|ev rest IH]; [reflexivity |].
  simpl doc_texts. rewrite filter_cons.
  destruct (in_asr_ocr (source ev)) eqn:Hsrc.
  - apply in_asr_ocr_true in Hsrc.
    rewrite decide_True by exact Hsrc. simpl. now rewrite IH.
  - rewrite decide_False; [exact IH |].
    intros Hin. apply in_asr_ocr_true in Hin. congruence.
Qed.

Lemma doc_texts_app (l1 l2 : list event) :
  doc_texts (l1 ++ l2) = (doc_texts l1 ++ doc_texts l2)%list.
Proof.
  induction l1 as [|ev l1 IH]; [reflexivity |].
  simpl. destruct (in_asr_ocr (source ev)); simpl; now rewrite IH.
Qed.

(** ** Properties of the pure steps *)

Lemma contains_here (needle post : string) : contains needle (needle +:+ post).
Proof. exists "", post. reflexivity. Qed.

Lemma contains_app_r (needle pre s : string) :
  contains needle s -> contains needle (pre +:+ s).
Proof.
  intros (p & q & ->). exists (pre +:+ p), q. now rewrite append_assoc.
Qed.

Ltac find_in_prompt :=
  repeat first [apply contains_here | apply contains_app_r].

Lemma prompt_with_context_has_context (doc x : string) :
  contains x (prompt_with_context doc x).
Proof. unfold prompt_with_context. find_in_prompt. Qed.

Lemma prompt_with_context_has_doc (doc x : string) :
  contains doc (prompt_with_context doc x).
Proof. unfold prompt_with_context. find_in_prompt. Qed.

Lemma prompt_no_context_has_doc (doc : string) :
  contains doc (prompt_no_context doc).
Proof. unfold prompt_no_context. find_in_prompt. Qed.

Lemma prompt_nonempty_context (doc x : string) :
  x <> "" -> prompt doc x = prompt_with_context doc x.
Proof. intros Hx. unfold prompt. now apply truthy_true_iff in Hx as ->. Qed.

Lemma prompt_templates_differ (doc x : string) :
  prompt_no_context doc <> prompt_with_context doc x.
Proof.
  unfold prompt_no_context, prompt_with_context. intros Heq.
  do 12 (apply (inj (String.app _)) in Heq).
  vm_compute in Heq. discriminate Heq.
Qed.

(** C3: the session document the pipeline builds is the newline-join of the
    texts of exactly the [ocr] and [asr] events, in stored order; an event
    of any other source leaves no trace in it, wherever it sits. *)
Theorem full_doc_is_session_document :
  (forall events : list event, full_doc events = session_document_spec events) /\
  (forall (before after : list event) (ev : event),
      source ev <> "ocr" -> source ev <> "asr" ->
      full_doc (before ++ ev :: after) = full_doc (before ++ after)).
Proof.
  split.
  - intros events. unfold full_doc, session_document_spec.
    now rewrite join_concat, doc_texts_filter.
  - intros before after ev Hocr Hasr. unfold full_doc.
    rewrite !doc_texts_app. simpl.
    destruct (in_asr_ocr (source ev)) eqn:Hsrc; [| reflexivity].
    apply in_asr_ocr_true in Hsrc. tauto.
Qed.

Lemma full_doc_is_session_document_witness :
  full_doc [Event "asr" "a"; Event "keyboard" "k"; Event "ocr" "b"] =
  full_doc [Event "asr" "a"; Event "ocr" "b"].
Proof.
  apply (proj2 full_doc_is_session_document
           [Event "asr" "a"] [Event "ocr" "b"] (Event "keyboard" "k"));
    simpl; discriminate.
Defined.

(** C4: the selector yields the empty context for no candidates and the
    content of the first candidate otherwise; two candidate lists with the
    same contents in the same order select the same context, whatever
    their scores are. *)
Theorem remedy_context_selects_first (score : Type) :
  remedy_context (@nil (score * string)) = "" /\
  (forall (sc : score) (content : string) (rest : list (score * string)),
      remedy_context ((sc, content) :: rest) = content) /\
  (forall l1 l2 : list (score * string),
      l1.*2 = l2.*2 -> remedy_context l1 = remedy_context l2).
Proof.
  repeat split; try reflexivity.
  intros [|[s1 c1] l1] [|[s2 c2] l2] Heq; simpl in *; congruence.
Qed.

Lemma remedy_context_selects_first_witness :
  remedy_context [((1 # 10)%Q, "weak"); ((9 # 10)%Q, "strong")] =
  remedy_context [((9 # 10)%Q, "weak"); ((1 # 10)%Q, "strong")].
Proof.
  apply (proj2 (proj2 (remedy_context_selects_first Q))). reflexivity.
Defined.

Example remedy_context_spec_example :
  remedy_context [((9 # 10)%Q, "a"); ((5 # 10)%Q, "b")] = "a".
Proof. reflexivity. Qed.

(** C5: the branch of the prompt depends on the emptiness of the context
    alone.  The empty context gives the no-context template: the document
    between triple backquotes under [Current session:], then the task of
    a summary and of guidance based on the content.  A non-empty context
    [x] gives the with-context template, which holds [x] and the whole
    document verbatim.  The two templates never give the same prompt for
    one document. *)
Theorem prompt_template_branching :
  (forall doc : string, prompt doc "" = prompt_no_context doc) /\
  (forall doc : string,
      prompt doc "" =
      "
            Current session:
            ```" +:+ doc +:+ "```
            
            Task: Analyze this session and provide:
            1) A brief summary of the current situation and emotions (1-2 sentences)  
            2) Thoughtful, actionable guidance based on the content
            
            Keep response under 120 words and make it personal and actionable.
            ") /\
  (forall doc : string, contains doc (prompt doc "")) /\
  (forall doc x : string,
      x <> "" ->
      prompt doc x = prompt_with_context doc x /\
      contains x (prompt doc x) /\
      contains doc (prompt doc x)) /\
  (forall doc x : string,
      x <> "" ->
      prompt doc x =
      "
            Current session:
            ```" +:+ doc +:+ "```
            
            This is the most relevant past experience that could be helpful for this results:
            ```" +:+ x +:+ "```
            
            Task: Analyze the current session and provide:
            1) A brief summary of the current situation and emotions (1-2 sentences)
            2) Actionable guidance that draws insight from the related past experience
            
            If the past experience contains a successful approach or solution, reference it specifically.
            Keep response under 120 words and make it personal and actionable.
            ") /\
  (forall doc x : string,
      x <> "" -> prompt doc "" <> prompt doc x) /\
  (forall doc x : string,
      prompt doc x =
      if decide (x = "") then prompt_no_context doc
      else prompt_with_context doc x).
Proof.
  split; [reflexivity |]. split; [reflexivity |].
  split; [intros doc; apply prompt_no_context_has_doc |]. split; [| split].
  - intros doc x Hx. rewrite (prompt_nonempty_context doc x Hx).
    auto using prompt_with_context_has_context, prompt_with_context_has_doc.
  - intros doc x Hx. by rewrite (prompt_nonempty_context doc x Hx).
  - split.
    + intros doc x Hx. rewrite (prompt_nonempty_context doc x Hx).
      apply prompt_templates_differ.
    + intros doc x. destruct (decide (x = "")) as [-> | Hx]; [reflexivity |].
      now apply prompt_nonempty_context.
Qed.

Lemma prompt_template_branching_witness :
  prompt "doc" "x" = prompt_with_context "doc" "x" /\
  contains "x" (prompt "doc" "x") /\
  contains "doc" (prompt "doc" "x").
Proof.
  apply (proj1 (proj2 (proj2 (proj2 prompt_template_branching))) "doc" "x").
  discriminate.
Defined.

(** C6, as stated, fails: the prompt the code renders is not the one-line
    text printed in the specification. *)
Lemma prompt_is_not_spec_template :
  ~ (forall d c : string, c <> "" -> prompt d c = with_context_template_spec d c).
Proof.
  intros H. specialize (H "d" "c" ltac:(discriminate)).
  vm_compute in H. discriminate H.
Qed.

(** C6, amended: for a non-empty context the prompt is the multi-line
    template of the source, indented as it is there, with the document and
    the context each between triple backquotes. *)
Theorem prompt_with_context_literal (d c : string) :
  c <> "" ->
  prompt d c =
  "
            Current session:
            ```" +:+ d +:+ "```
            
            This is the most relevant past experience that could be helpful for this results:
            ```" +:+ c +:+ "```
            
            Task: Analyze the current session and provide:
            1) A brief summary of the current situation and emotions (1-2 sentences)
            2) Actionable guidance that draws insight from the related past experience
            
            If the past experience contains a successful approach or solution, reference it specifically.
            Keep response under 120 words and make it personal and actionable.
            ".
Proof. intros Hc. now rewrite (prompt_nonempty_context d c Hc). Qed.

Lemma prompt_with_context_literal_witness :
  prompt "d" "c" =
  "
            Current session:
            ```" +:+ "d" +:+ "```
            
            This is the most relevant past experience that could be helpful for this results:
            ```" +:+ "c" +:+ "```
            
            Task: Analyze the current session and provide:
            1) A brief summary of the current situation and emotions (1-2 sentences)
            2) Actionable guidance that draws insight from the related past experience
            
            If the past experience contains a successful approach or solution, reference it specifically.
            Keep response under 120 words and make it personal and actionable.
            ".
Proof. apply (prompt_with_context_literal "d" "c"). discriminate. Defined.

(** ** Properties of a pipeline run *)

Section PipelineFacts.

Context {W score : Type}.
Implicit Types (env : collaborators W score) (st : state W).
Implicit Types (session_id sid : string) (entry : pydict).

(** What a run does, by how far the [try] block gets: it ends normally in
    both cases, having stored an error entry or a success entry made from
    the answer of the generation backend to the full prompt. *)
Lemma run_journal_pipeline_cases env sid st :
  (exists (e : exc) (w' : W),
      run_journal_pipeline env sid st =
      (Ok tt, State w' (<[sid := error_entry e]> (journal_cache st)))) \/
  (exists (events : list event) (sims : list (score * string))
          (response : string) (w w' : W),
      generate_response env
        (prompt (full_doc events) (remedy_context sims)) [] w =
      (Ok response, w') /\
      run_journal_pipeline env sid st =
      (Ok tt,
       State w'
         (<[sid := success_entry response (related_memory (remedy_context sims))]>
            (journal_cache st)))).
Proof.
  destruct st as [w0 c].
  unfold run_journal_pipeline, try_except, pipeline_body, bind, call, cache_set.
  simpl.
  destruct (process_session env sid w0) as [[node_ids | e] w1]; simpl;
    [| left; eauto].
  destruct (get_raw_events_by_session env sid w1) as [[events | e] w2]; simpl;
    [| left; eauto].
  destruct (search_similar env (full_doc events) 3 w2) as [[sims | e] w3];
    simpl; [| left; eauto].
  destruct (generate_response env
              (prompt (full_doc events) (remedy_context sims)) [] w3)
    as [[response | e] w4] eqn:Hgen; simpl; [| left; eauto].
  right. exists events, sims, response, w3, w4. auto.
Qed.

Lemma success_entry_lookup (response : string) (memory : pyval) :
  success_entry response memory !! "summary_action" = Some (PyStr response) /\
  success_entry response memory !! "related_memory" = Some memory /\
  success_entry response memory !! "error" = None /\
  success_entry response memory !! "status" = None /\
  success_entry response memory !! "session_id" = None.
Proof. unfold success_entry. repeat split; by simplify_map_eq. Qed.

Lemma error_entry_lookup (e : exc) :
  error_entry e !! "error" = Some (PyStr (str_of e)) /\
  error_entry e !! "summary_action" = None /\
  error_entry e !! "related_memory" = None /\
  error_entry e !! "status" = None /\
  error_entry e !! "session_id" = None.
Proof. unfold error_entry. repeat split; by simplify_map_eq. Qed.

Lemma entry_shape_non_empty entry : entry_shape entry -> entry <> ∅.
Proof.
  intros [(r & m & ->) | (e & ->)]; apply insert_non_empty.
Qed.

Lemma entry_shape_reserved_keys entry :
  entry_shape entry ->
  entry !! "status" = None /\ entry !! "session_id" = None.
Proof.
  intros [(r & m & ->) | (e & ->)].
  - split; apply success_entry_lookup.
  - split; apply error_entry_lookup.
Qed.

(** The shape is an invariant of the cache: it holds of the empty cache
    and every run keeps it. *)
Lemma reachable_entry_shape (c : cache) :
  reachable W score c ->
  forall sid entry, c !! sid = Some entry -> entry_shape entry.
Proof.
  induction 1 as [| env sid0 st Hreach IH]; intros sid entry Hlook.
  - by rewrite lookup_empty in Hlook.
  - destruct (run_journal_pipeline_cases env sid0 st)
      as [(e & w' & Hrun) | (events & sims & response & w & w' & _ & Hrun)];
      rewrite Hrun in Hlook; simpl in Hlook;
      (destruct (decide (sid0 = sid)) as [-> | Hne];
        [ rewrite lookup_insert_eq in Hlook; injection Hlook as <-
        | rewrite lookup_insert_ne in Hlook by done; by eapply IH ]).
    + right. by exists e.
    + left. by eexists _, _.
Qed.

Lemma get_journal_run sid st :
  get_journal sid st =
  (Ok (match journal_cache st !! sid with
       | Some entry =>
           if bool_decide (entry = ∅) then processing_response sid
           else done_response sid entry
       | None => processing_response sid
       end), st).
Proof.
  unfold get_journal, bind, cache_get, ret, entry_truthy.
  destruct (journal_cache st !! sid) as [entry |]; simpl; [| reflexivity].
  destruct (bool_decide (entry = ∅)); reflexivity.
Qed.

Lemma done_response_lookup sid entry :
  entry !! "status" = None -> entry !! "session_id" = None ->
  done_response sid entry !! "status" = Some (PyStr "done") /\
  done_response sid entry !! "session_id" = Some (PyStr sid) /\
  (forall k : string,
      k <> "status" -> k <> "session_id" ->
      done_response sid entry !! k = entry !! k).
Proof.
  intros Hstatus Hsid. unfold done_response. repeat split.
  - rewrite lookup_union_r by done. by simplify_map_eq.
  - rewrite lookup_union_r by done. by simplify_map_eq.
  - intros k Hk1 Hk2. apply lookup_union_l. by simplify_map_eq.
Qed.

(** A run whose first three calls return: what it does is what the
    generation backend answers to the prompt built from the fetched events
    and the candidates found. *)
Lemma run_journal_pipeline_generate env sid st
    (node_ids : list string) (w1 : W) (events : list event) (w2 : W)
    (sims : list (score * string)) (w3 : W) :
  process_session env sid (world st) = (Ok node_ids, w1) ->
  get_raw_events_by_session env sid w1 = (Ok events, w2) ->
  search_similar env (full_doc events) 3 w2 = (Ok sims, w3) ->
  run_journal_pipeline env sid st =
  match
    generate_response env
      (prompt (full_doc events) (remedy_context sims)) [] w3
  with
  | (Ok response, w4) =>
      (Ok tt,
       State w4
         (<[sid := success_entry response (related_memory (remedy_context sims))]>
            (journal_cache st)))
  | (Raise e, w4) =>
      (Ok tt, State w4 (<[sid := error_entry e]> (journal_cache st)))
  end.
Proof.
  intros Hproc Hraw Hsearch. destruct st as [w0 c]. simpl in *.
  unfold run_journal_pipeline, try_except, pipeline_body, bind, call, cache_set.
  simpl. rewrite Hproc. simpl. rewrite Hraw. simpl. rewrite Hsearch. simpl.
  destruct (generate_response env
              (prompt (full_doc events) (remedy_context sims)) [] w3)
    as [[response | e] w4]; reflexivity.
Qed.

(** A success entry comes from a run in which all four calls returned,
    each from the world the call before it left. *)
Lemma run_journal_pipeline_success_inv env sid st entry :
  journal_cache (snd (run_journal_pipeline env sid st)) !! sid = Some entry ->
  is_Some (entry !! "summary_action") ->
  exists (node_ids : list string) (w1 : W) (events : list event) (w2 : W)
         (sims : list (score * string)) (w3 : W) (response : string) (w4 : W),
    process_session env sid (world st) = (Ok node_ids, w1) /\
    get_raw_events_by_session env sid w1 = (Ok events, w2) /\
    search_similar env (full_doc events) 3 w2 = (Ok sims, w3) /\
    generate_response env
      (prompt (full_doc events) (remedy_context sims)) [] w3 =
    (Ok response, w4) /\
    world (snd (run_journal_pipeline env sid st)) = w4 /\
    entry = success_entry response (related_memory (remedy_context sims)).
Proof.
  destruct st as [w0 c].
  unfold run_journal_pipeline, try_except, pipeline_body, bind, call, cache_set.
  simpl.
  assert (Herr : forall (e : exc) (cc : cache),
             <[sid := error_entry e]> cc !! sid = Some entry ->
             is_Some (entry !! "summary_action") -> False).
  { intros e cc Hlook Hsum. rewrite lookup_insert_eq in Hlook.
    injection Hlook as <-.
    destruct (error_entry_lookup e) as (_ & Hnone & _).
    rewrite Hnone in Hsum. by destruct Hsum. }
  destruct (process_session env sid w0) as [[node_ids | e] w1] eqn:Hproc;
    simpl; [| intros H1 H2; destruct (Herr _ _ H1 H2)].
  destruct (get_raw_events_by_session env sid w1) as [[events | e] w2]
    eqn:Hraw; simpl; [| intros H1 H2; destruct (Herr _ _ H1 H2)].
  destruct (search_similar env (full_doc events) 3 w2) as [[sims | e] w3]
    eqn:Hsearch; simpl; [| intros H1 H2; destruct (Herr _ _ H1 H2)].
  destruct (generate_response env
              (prompt (full_doc events) (remedy_context sims)) [] w3)
    as [[response | e] w4] eqn:Hgen; simpl;
    [| intros H1 H2; destruct (Herr _ _ H1 H2)].
  rewrite lookup_insert_eq. intros [= <-] _.
  by exists node_ids, w1, events, w2, sims, w3, response, w4.
Qed.

Lemma processing_response_lookup sid :
  processing_response sid !! "status" = Some (PyStr "processing") /\
  processing_response sid !! "session_id" = Some (PyStr sid) /\
  (forall k : string,
      k <> "status" -> k <> "session_id" ->
      processing_response sid !! k = None).
Proof.
  unfold processing_response. repeat split; try by simplify_map_eq.
  intros k Hk1 Hk2. by simplify_map_eq.
Qed.

End PipelineFacts.

(** ** The claims about the pipeline and the poll *)

Section Claims.

Context {W score : Type}.
Implicit Types (env : collaborators W score) (st : state W).
Implicit Types (sid : string) (entry : pydict).

(** C1: whatever the collaborators do, raising included, a run of
    [run_journal_pipeline] ends normally, and the cache then holds for the
    session id one entry that has either the success shape, with
    [summary_action] and without [error], or the error shape, with [error]
    and without [summary_action]. *)
Theorem run_journal_pipeline_terminal_entry env sid st :
  exists (st' : state W) entry,
    run_journal_pipeline env sid st = (Ok tt, st') /\
    journal_cache st' !! sid = Some entry /\
    entry_shape entry /\
    ((is_Some (entry !! "summary_action") /\ entry !! "error" = None) \/
     (is_Some (entry !! "error") /\ entry !! "summary_action" = None)) /\
    ~ (is_Some (entry !! "summary_action") /\ is_Some (entry !! "error")).
Proof.
  destruct (run_journal_pipeline_cases env sid st)
    as [(e & w' & Hrun) | (events & sims & response & w & w' & _ & Hrun)];
    rewrite Hrun; eexists _, _; (split; [reflexivity |]);
    (split; [apply lookup_insert_eq |]).
  - destruct (error_entry_lookup e) as (Herr & Hsum & _).
    split; [right; by exists e |]. rewrite Herr, Hsum. split.
    + right. split; [by eexists | done].
    + intros [[? ?] _]. done.
  - destruct (success_entry_lookup response
                (related_memory (remedy_context sims))) as (Hsum & _ & Herr & _).
    split; [left; by eexists _, _ |]. rewrite Herr, Hsum. split.
    + left. split; [by eexists | done].
    + intros [_ [? ?]]. done.
Qed.

(** C8: a run for [sid] leaves the entry of every other session id as it
    was, present or absent, whether the run succeeds or fails. *)
Theorem run_journal_pipeline_frame env sid t st :
  t <> sid ->
  journal_cache (snd (run_journal_pipeline env sid st)) !! t =
  journal_cache st !! t.
Proof.
  intros Hne.
  destruct (run_journal_pipeline_cases env sid st)
    as [(e & w' & Hrun) | (events & sims & response & w & w' & _ & Hrun)];
    rewrite Hrun; simpl; by rewrite lookup_insert_ne.
Qed.

(** C9: a poll changes nothing: the state after [get_journal] is the state
    before it, so any number of polls leaves the state as it was and
    whatever runs after a poll behaves as if the poll had not happened. *)
Theorem get_journal_read_only :
  (forall sid st, snd (get_journal sid st) = st) /\
  (forall (n : nat) sid st, poll_times n sid st = (Ok tt, st)) /\
  (forall (A : Type) (later : M W A) sid st,
      bind (get_journal sid) (fun _ => later) st = later st).
Proof.
  split; [| split].
  - intros sid st. by rewrite get_journal_run.
  - intros n sid st. induction n as [| n IH]; [reflexivity |].
    simpl. unfold bind at 1. by rewrite get_journal_run.
  - intros A later sid st. unfold bind. by rewrite get_journal_run.
Qed.

(** C2: in a cache the program can reach, a poll answers
    [{status: "processing", session_id}], these two fields and no other,
    exactly when the session id has no entry; otherwise it answers [done]
    with the session id and every field of the entry, and nothing else.
    An error entry therefore shows as [done] with its message unchanged
    under [error]. *)
Theorem get_journal_poll_response (c : cache) (w : W) sid :
  reachable W score c ->
  (c !! sid = None <->
   fst (get_journal sid (State w c)) = Ok (processing_response sid)) /\
  (c !! sid = None <->
   exists resp : pydict,
     fst (get_journal sid (State w c)) = Ok resp /\
     resp !! "status" = Some (PyStr "processing")) /\
  (processing_response sid !! "status" = Some (PyStr "processing") /\
   processing_response sid !! "session_id" = Some (PyStr sid) /\
   (forall k : string,
       k <> "status" -> k <> "session_id" ->
       processing_response sid !! k = None)) /\
  (forall entry,
      c !! sid = Some entry ->
      fst (get_journal sid (State w c)) = Ok (done_response sid entry) /\
      done_response sid entry !! "status" = Some (PyStr "done") /\
      done_response sid entry !! "session_id" = Some (PyStr sid) /\
      (forall k : string,
          k <> "status" -> k <> "session_id" ->
          done_response sid entry !! k = entry !! k) /\
      ((exists (response : string) (memory : pyval),
           entry = success_entry response memory /\
           done_response sid entry !! "summary_action" = Some (PyStr response) /\
           done_response sid entry !! "related_memory" = Some memory) \/
       (exists e : exc,
           entry = error_entry e /\
           done_response sid entry !! "error" = Some (PyStr (str_of e))))).
Proof.
  intros Hreach.
  assert (Hdone : forall entry,
             c !! sid = Some entry ->
             fst (get_journal sid (State w c)) = Ok (done_response sid entry) /\
             done_response sid entry !! "status" = Some (PyStr "done") /\
             done_response sid entry !! "session_id" = Some (PyStr sid) /\
             (forall k : string,
                 k <> "status" -> k <> "session_id" ->
                 done_response sid entry !! k = entry !! k)).
  { intros entry Hentry.
    pose proof (reachable_entry_shape c Hreach sid entry Hentry) as Hshape.
    destruct (entry_shape_reserved_keys entry Hshape) as [Hstatus Hsid].
    split; [| by apply done_response_lookup].
    rewrite get_journal_run. simpl. rewrite Hentry.
    rewrite bool_decide_eq_false_2; [reflexivity |].
    by apply entry_shape_non_empty. }
  destruct (processing_response_lookup sid) as (Hpstatus & Hpsid & Hpother).
  assert (Hnone : c !! sid = None ->
                  fst (get_journal sid (State w c)) =
                  Ok (processing_response sid)).
  { intros Hnone. rewrite get_journal_run. simpl. by rewrite Hnone. }
  assert (Hproc : forall resp : pydict,
             fst (get_journal sid (State w c)) = Ok resp ->
             resp !! "status" = Some (PyStr "processing") ->
             c !! sid = None).
  { intros resp Hresp Hst.
    destruct (c !! sid) as [entry |] eqn:Hentry; [| done].
    destruct (Hdone entry eq_refl) as (Hget & Hstatus & _).
    rewrite Hget in Hresp. injection Hresp as <-. congruence. }
  split; [| split; [| split]].
  - split; [exact Hnone |]. intros Hresp. by apply (Hproc _ Hresp).
  - split.
    + intros Hc. exists (processing_response sid). by split; [apply Hnone |].
    + intros (resp & Hresp & Hst). by apply (Hproc resp).
  - by repeat split.
  - intros entry Hentry.
    destruct (Hdone entry Hentry) as (Hget & Hstatus & Hsid & Hother).
    repeat (split; [assumption |]).
    destruct (reachable_entry_shape c Hreach sid entry Hentry)
      as [(r & m & ->) | (e & ->)].
    + left. exists r, m. split; [reflexivity |].
      rewrite !Hother by done. split; apply success_entry_lookup.
    + right. exists e. split; [reflexivity |].
      rewrite Hother by done. apply error_entry_lookup.
Qed.

(** C7: the [related_memory] of a success entry is [None] for an empty
    context and otherwise the first 200 characters of the context; so it
    is never longer than 200 characters and it is the whole context
    exactly when the context has at most 200 characters.  The prompt, for
    its part, holds the whole context: a success entry of a run holds the
    answer of the generation backend to the prompt built from the events
    fetched and the whole content of the first candidate found in that
    run, and next to it that content cut to 200 characters. *)
Theorem related_memory_truncation :
  related_memory "" = PyNone /\
  (forall rc : string,
      rc <> "" ->
      related_memory rc = PyStr (slice_to 200 rc) /\
      String.length (slice_to 200 rc) = Nat.min 200 (String.length rc) /\
      exists rest : string, rc = slice_to 200 rc +:+ rest) /\
  (forall (rc m : string),
      related_memory rc = PyStr m ->
      String.length m <= 200 /\ (m = rc <-> String.length rc <= 200)) /\
  (forall doc rc : string, contains rc (prompt doc rc)) /\
  (forall env sid st entry,
      journal_cache (snd (run_journal_pipeline env sid st)) !! sid = Some entry ->
      is_Some (entry !! "summary_action") ->
      exists (node_ids : list string) (w1 : W) (events : list event) (w2 : W)
             (sims : list (score * string)) (w3 : W)
             (response : string) (w4 : W),
        process_session env sid (world st) = (Ok node_ids, w1) /\
        get_raw_events_by_session env sid w1 = (Ok events, w2) /\
        search_similar env (full_doc events) 3 w2 = (Ok sims, w3) /\
        generate_response env
          (prompt (full_doc events) (remedy_context sims)) [] w3 =
        (Ok response, w4) /\
        world (snd (run_journal_pipeline env sid st)) = w4 /\
        contains (remedy_context sims)
          (prompt (full_doc events) (remedy_context sims)) /\
        entry !! "summary_action" = Some (PyStr response) /\
        entry !! "related_memory" =
        Some (related_memory (remedy_context sims))).
Proof.
  split; [reflexivity |]. split; [| split; [| split]].
  - intros rc Hrc. unfold related_memory.
    apply truthy_true_iff in Hrc as ->.
    split; [reflexivity |]. split; [apply length_slice_to | apply slice_to_prefix].
  - intros rc m Hmem. unfold related_memory in Hmem.
    destruct (truthy rc); [| discriminate].
    assert (m = slice_to 200 rc) as -> by congruence.
    pose proof (length_slice_to 200 rc) as Hlen. split; [lia |]. split.
    + intros Heq. rewrite Heq in Hlen. lia.
    + apply slice_to_all.
  - intros doc rc. destruct (decide (rc = "")) as [-> | Hrc].
    + by exists "", (prompt doc "").
    + rewrite (prompt_nonempty_context doc rc Hrc).
      apply prompt_with_context_has_context.
  - intros env sid st entry Hentry Hsum.
    destruct (run_journal_pipeline_success_inv env sid st entry Hentry Hsum)
      as (node_ids & w1 & events & w2 & sims & w3 & response & w4
          & Hproc & Hraw & Hsearch & Hgen & Hworld & ->).
    exists node_ids, w1, events, w2, sims, w3, response, w4.
    do 5 (split; [assumption |]). split; [| split].
    + destruct (decide (remedy_context sims = "")) as [-> | Hrc].
      * by exists "", (prompt (full_doc events) "").
      * rewrite (prompt_nonempty_context _ _ Hrc).
        apply prompt_with_context_has_context.
    + apply success_entry_lookup.
    + apply success_entry_lookup.
Qed.

(** C10: a candidate list whose first content is the empty string counts
    as no candidate list at all.  In a run where the search has returned
    either such a list or the empty list, the generation backend is given
    the no-context template around the session document, and a success
    entry holds [None] as [related_memory]: the run is the same in both
    cases.  Hence two similarity searches that differ only in that one
    returns such a list where the other returns the empty list give runs
    with the same outcome and the same final state. *)
Theorem empty_top_content_as_no_candidates env
    (search1 search2 : string -> nat -> W -> result (list (score * string)) * W)
    sid st :
  (forall (q : string) (k : nat) (w : W),
      search1 q k w = search2 q k w \/
      exists (sc : score) (rest : list (score * string)) (w' : W),
        search1 q k w = (Ok ((sc, "") :: rest), w') /\
        search2 q k w = (Ok [], w')) ->
  run_journal_pipeline (with_search env search1) sid st =
  run_journal_pipeline (with_search env search2) sid st /\
  (forall (node_ids : list string) (w1 : W) (events : list event) (w2 : W)
          (sims : list (score * string)) (w3 : W),
      process_session env sid (world st) = (Ok node_ids, w1) ->
      get_raw_events_by_session env sid w1 = (Ok events, w2) ->
      search_similar env (full_doc events) 3 w2 = (Ok sims, w3) ->
      sims = [] \/ (exists (sc : score) (rest : list (score * string)),
                       sims = (sc, "") :: rest) ->
      (forall response : string,
          success_entry response PyNone !! "summary_action" =
          Some (PyStr response) /\
          success_entry response PyNone !! "related_memory" = Some PyNone /\
          success_entry response PyNone !! "error" = None) /\
      run_journal_pipeline env sid st =
      match
        generate_response env
          ("
            Current session:
            ```" +:+ full_doc events +:+ "```
            
            Task: Analyze this session and provide:
            1) A brief summary of the current situation and emotions (1-2 sentences)  
            2) Thoughtful, actionable guidance based on the content
            
            Keep response under 120 words and make it personal and actionable.
            ") [] w3
      with
      | (Ok response, w4) =>
          (Ok tt,
           State w4
             (<[sid := success_entry response PyNone]> (journal_cache st)))
      | (Raise e, w4) =>
          (Ok tt, State w4 (<[sid := error_entry e]> (journal_cache st)))
      end) /\
  (forall (doc : string) (sc : score) (rest : list (score * string)),
      prompt doc (remedy_context ((sc, "") :: rest)) = prompt_no_context doc /\
      prompt doc (remedy_context ((sc, "") :: rest)) =
      prompt doc (remedy_context (@nil (score * string))) /\
      related_memory (remedy_context ((sc, "") :: rest)) = PyNone).
Proof.
  intros Hsearch. split; [| split; [| by intros doc sc rest]].
  - destruct st as [w0 c].
    unfold run_journal_pipeline, try_except, pipeline_body, bind, call,
      with_search.
    simpl.
    destruct (process_session env sid w0) as [[node_ids | e] w1]; simpl;
      [| reflexivity].
    destruct (get_raw_events_by_session env sid w1) as [[events | e] w2];
      simpl; [| reflexivity].
    destruct (Hsearch (full_doc events) 3 w2)
      as [-> | (sc & rest & w' & -> & ->)]; reflexivity.
  - intros node_ids w1 events w2 sims w3 Hproc Hraw Hsims Hempty.
    split; [intros response; repeat split; apply success_entry_lookup |].
    rewrite (run_journal_pipeline_generate env sid st _ _ _ _ _ _
               Hproc Hraw Hsims).
    by destruct Hempty as [-> | (sc & rest & ->)].
Qed.

End Claims.

(** ** The claims at concrete inputs *)

Lemma run_journal_pipeline_frame_witness :
  "session-b" <> "session-a" /\
  journal_cache
    (snd (run_journal_pipeline failing_env "session-a"
            (snd (run_journal_pipeline demo_env "session-b" demo_state))))
    !! "session-b" =
  journal_cache (snd (run_journal_pipeline demo_env "session-b" demo_state))
    !! "session-b".
Proof.
  split; [discriminate |].
  apply (run_journal_pipeline_frame failing_env "session-a" "session-b").
  discriminate.
Defined.

Lemma get_journal_poll_response_witness :
  reachable (list string) Q
    (journal_cache (snd (run_journal_pipeline failing_env "session-a" demo_state))) /\
  fst (get_journal "session-a"
         (State (@nil string) (journal_cache
                      (snd (run_journal_pipeline failing_env "session-a" demo_state))))) =
  Ok (done_response "session-a" (error_entry (Exception "model not loaded"))).
Proof.
  assert (Hreach : reachable (list string) Q
            (journal_cache
               (snd (run_journal_pipeline failing_env "session-a" demo_state)))).
  { apply reachable_run. apply reachable_init. }
  split; [exact Hreach |].
  apply (proj2 (proj2 (proj2
           (get_journal_poll_response _ (@nil string) "session-a" Hreach)))).
  vm_compute. reflexivity.
Defined.

Lemma related_memory_truncation_witness :
  related_memory "Last time I practiced with mock interviews and it went better" =
  PyStr (slice_to 200 "Last time I practiced with mock interviews and it went better").
Proof.
  apply (proj1 (proj2 (@related_memory_truncation (list string) Q))).
  discriminate.
Defined.

Lemma empty_top_content_as_no_candidates_witness :
  run_journal_pipeline
    (with_search demo_env
       (fun _ _ w => (Ok [((1 # 2)%Q, ""); ((1 # 3)%Q, "older session")], w)))
    "session-a" demo_state =
  run_journal_pipeline
    (with_search demo_env (fun _ _ w => (Ok [], w)))
    "session-a" demo_state.
Proof.
  refine (proj1 (empty_top_content_as_no_candidates demo_env
                   (fun _ _ w =>
                      (Ok [((1 # 2)%Q, ""); ((1 # 3)%Q, "older session")], w))
                   (fun _ _ w => (Ok [], w)) "session-a" demo_state _)).
  intros q k w. right. by exists (1 # 2)%Q, [((1 # 3)%Q, "older session")], w.
Defined.

(** ** The end-to-end scenarios of the specification *)

Example scenario_with_context :
  journal_cache (snd (run_journal_pipeline demo_env "session-a" demo_state))
    !! "session-a" =
  Some (success_entry "Practice again."
          (PyStr "Last time I practiced with mock interviews and it went better")) /\
  world (snd (run_journal_pipeline demo_env "session-a" demo_state)) =
  [prompt_with_context
     ("I bombed the interview" +:+ nl +:+ "Rejection email")
     "Last time I practiced with mock interviews and it went better"].
Proof. split; vm_compute; reflexivity. Qed.

Example scenario_generation_fails :
  fst (get_journal "session-a"
         (snd (run_journal_pipeline failing_env "session-a" demo_state))) =
  Ok (done_response "session-a" (error_entry (Exception "model not loaded"))) /\
  fst (get_journal "session-b"
         (snd (run_journal_pipeline failing_env "session-a" demo_state))) =
  Ok (processing_response "session-b").
Proof. split; vm_compute; reflexivity. Qed.

Example slice_to_long :
  String.length
    (slice_to 200 (String.concat "" (repeat "0123456789" 30))) = 200.
Proof. reflexivity. Qed.

(** ** Further properties of the pipeline and the cache *)

Section PipelineMore.

Context {W score : Type}.
Implicit Types (env : collaborators W score) (st : state W).
Implicit Types (sid : string) (entry : pydict) (c : cache).

(** What a run stores and where it leaves the world depend on the world
    it starts in, not on the cache. *)
Lemma run_journal_pipeline_cache_independent env sid (w : W) :
  exists entry (w' : W),
    entry_shape entry /\
    forall c,
      run_journal_pipeline env sid (State w c) =
      (Ok tt, State w' (<[sid := entry]> c)).
Proof.
  unfold run_journal_pipeline, try_except, pipeline_body, bind, call, cache_set.
  simpl.
  destruct (process_session env sid w) as [[node_ids | e] w1]; simpl;
    [| exists (error_entry e), w1; split; [right; by exists e | done]].
  destruct (get_raw_events_by_session env sid w1) as [[events | e] w2]; simpl;
    [| exists (error_entry e), w2; split; [right; by exists e | done]].
  destruct (search_similar env (full_doc events) 3 w2) as [[sims | e] w3];
    simpl; [| exists (error_entry e), w3; split; [right; by exists e | done]].
  destruct (generate_response env
              (prompt (full_doc events) (remedy_context sims)) [] w3)
    as [[response | e] w4]; simpl.
  - eexists _, w4. split; [left; by eexists _, _ | done].
  - exists (error_entry e), w4. split; [right; by exists e | done].
Qed.

(** X1: a second run for the same session id replaces what the first run
    stored: the state after both runs is the state the second run would
    reach had the first one written nothing to the cache. *)
Theorem rerun_overwrites_entry (env1 env2 : collaborators W score) sid st :
  snd (run_journal_pipeline env2 sid (snd (run_journal_pipeline env1 sid st))) =
  snd (run_journal_pipeline env2 sid
         (State (world (snd (run_journal_pipeline env1 sid st)))
            (journal_cache st))).
Proof.
  destruct st as [w c].
  destruct (run_journal_pipeline_cache_independent env1 sid w)
    as (entry1 & w1 & _ & Hrun1).
  destruct (run_journal_pipeline_cache_independent env2 sid w1)
    as (entry2 & w2 & _ & Hrun2).
  rewrite Hrun1. simpl. rewrite !Hrun2. simpl.
  by rewrite insert_insert_eq.
Qed.

(** X2: a run adds its session id to the keys of the cache and removes
    none: entries are never evicted. *)
Theorem run_journal_pipeline_dom env sid st :
  dom (journal_cache (snd (run_journal_pipeline env sid st))) =
  {[sid]} ∪ dom (journal_cache st).
Proof.
  destruct st as [w c].
  destruct (run_journal_pipeline_cache_independent env sid w)
    as (entry & w' & _ & Hrun).
  rewrite Hrun. simpl. apply dom_insert_L.
Qed.

(** X3: the pipeline has no failure of its own: when none of the four
    collaborators raises, the run stores a success entry, also for a
    session without events and a search without candidates.  Its
    [summary_action] is what the generation backend answered to the
    prompt built from the events fetched in this run and the candidates
    found for their document, each call starting from the world the call
    before it left. *)
Theorem run_journal_pipeline_succeeds env sid st :
  (forall s w, exists v w', process_session env s w = (Ok v, w')) ->
  (forall s w, exists v w', get_raw_events_by_session env s w = (Ok v, w')) ->
  (forall q k w, exists v w', search_similar env q k w = (Ok v, w')) ->
  (forall p h w, exists v w', generate_response env p h w = (Ok v, w')) ->
  exists (node_ids : list string) (w1 : W) (events : list event) (w2 : W)
         (sims : list (score * string)) (w3 : W) (response : string) (w4 : W),
    process_session env sid (world st) = (Ok node_ids, w1) /\
    get_raw_events_by_session env sid w1 = (Ok events, w2) /\
    search_similar env (full_doc events) 3 w2 = (Ok sims, w3) /\
    generate_response env
      (prompt (full_doc events) (remedy_context sims)) [] w3 =
    (Ok response, w4) /\
    run_journal_pipeline env sid st =
    (Ok tt,
     State w4
       (<[sid := success_entry response (related_memory (remedy_context sims))]>
          (journal_cache st))) /\
    success_entry response (related_memory (remedy_context sims))
      !! "summary_action" = Some (PyStr response) /\
    success_entry response (related_memory (remedy_context sims))
      !! "related_memory" = Some (related_memory (remedy_context sims)) /\
    success_entry response (related_memory (remedy_context sims))
      !! "error" = None.
Proof.
  intros Hproc Hraw Hsearch Hgen.
  destruct (Hproc sid (world st)) as (node_ids & w1 & Hp).
  destruct (Hraw sid w1) as (events & w2 & Hr).
  destruct (Hsearch (full_doc events) 3 w2) as (sims & w3 & Hs).
  destruct (Hgen (prompt (full_doc events) (remedy_context sims)) [] w3)
    as (response & w4 & Hg).
  exists node_ids, w1, events, w2, sims, w3, response, w4.
  do 4 (split; [assumption |]). split.
  - rewrite (run_journal_pipeline_generate env sid st _ _ _ _ _ _ Hp Hr Hs).
    by rewrite Hg.
  - repeat split; apply success_entry_lookup.
Qed.


Lemma get_journal_after_run env sid st :
  exists entry,
    journal_cache (snd (run_journal_pipeline env sid st)) !! sid = Some entry /\
    entry_shape entry /\
    fst (get_journal sid (snd (run_journal_pipeline env sid st))) =
    Ok (done_response sid entry) /\
    done_response sid entry !! "status" = Some (PyStr "done") /\
    done_response sid entry !! "session_id" = Some (PyStr sid) /\
    (forall k : string,
        k <> "status" -> k <> "session_id" ->
        done_response sid entry !! k = entry !! k).
Proof.
  destruct st as [w c].
  destruct (run_journal_pipeline_cache_independent env sid w)
    as (entry & w' & Hshape & Hrun).
  exists entry. rewrite Hrun. simpl.
  split; [apply lookup_insert_eq |]. split; [exact Hshape |].
  destruct (entry_shape_reserved_keys entry Hshape) as [Hstatus Hsid].
  split; [| by apply done_response_lookup].
  rewrite get_journal_run. simpl. rewrite lookup_insert_eq.
  rewrite bool_decide_eq_false_2; [reflexivity |].
  by apply entry_shape_non_empty.
Qed.

(** X5: once a run for a session id has ended, a poll for it answers
    [done], from whatever state the run started: the answer is the entry
    the run has left in the cache for that id, with [status] and
    [session_id] added and no field changed.  Runs for other session ids
    that come later do not change that answer. *)
Theorem poll_after_run env sid st :
  (exists entry,
      journal_cache (snd (run_journal_pipeline env sid st)) !! sid =
      Some entry /\
      entry_shape entry /\
      fst (get_journal sid (snd (run_journal_pipeline env sid st))) =
      Ok (done_response sid entry) /\
      done_response sid entry !! "status" = Some (PyStr "done") /\
      done_response sid entry !! "session_id" = Some (PyStr sid) /\
      (forall k : string,
          k <> "status" -> k <> "session_id" ->
          done_response sid entry !! k = entry !! k)) /\
  (forall (env' : collaborators W score) (t : string),
      t <> sid ->
      fst (get_journal sid
             (snd (run_journal_pipeline env' t
                     (snd (run_journal_pipeline env sid st))))) =
      fst (get_journal sid (snd (run_journal_pipeline env sid st)))).
Proof.
  split; [apply get_journal_after_run |].
  intros env' t Hne. rewrite !get_journal_run. simpl.
  destruct (snd (run_journal_pipeline env sid st)) as [w1 c1].
  destruct (run_journal_pipeline_cache_independent env' t w1)
    as (entry' & w' & _ & Hrun).
  rewrite Hrun. simpl. by rewrite lookup_insert_ne.
Qed.

(** X6: [end_session] answers [{status: "processing", session_id}] and
    leaves the state as it is: it only puts the pipeline run for the
    session id at the end of the loop's queue.  When the loop has run its
    queue, the state is the one reached by running what was queued before
    and then [run_journal_pipeline] for that session id, and a poll for
    it answers [done] with the entry that run has stored.  Nothing merges
    two triggers for one session id: each queues a run of its own. *)
Theorem end_session_then_loop env sid (srv : server W) :
  (fst (end_session env sid srv) !! "status" = Some (PyStr "processing") /\
   fst (end_session env sid srv) !! "session_id" = Some (PyStr sid) /\
   (forall k : string,
       k <> "status" -> k <> "session_id" ->
       fst (end_session env sid srv) !! k = None)) /\
  store (snd (end_session env sid srv)) = store srv /\
  ready (snd (end_session env sid srv)) =
  (ready srv ++ [run_journal_pipeline env sid])%list /\
  store (run_ready (snd (end_session env sid srv))) =
  snd (run_journal_pipeline env sid (store (run_ready srv))) /\
  ready (run_ready (snd (end_session env sid srv))) = [] /\
  (exists entry,
      journal_cache (store (run_ready (snd (end_session env sid srv)))) !! sid =
      Some entry /\
      journal_cache
        (snd (run_journal_pipeline env sid (store (run_ready srv)))) !! sid =
      Some entry /\
      entry_shape entry /\
      fst (get_journal sid
             (store (run_ready (snd (end_session env sid srv))))) =
      Ok (done_response sid entry) /\
      done_response sid entry !! "status" = Some (PyStr "done") /\
      (forall k : string,
          k <> "status" -> k <> "session_id" ->
          done_response sid entry !! k = entry !! k)) /\
  ready (snd (end_session env sid (snd (end_session env sid srv)))) =
  (ready srv ++
   [run_journal_pipeline env sid; run_journal_pipeline env sid])%list.
Proof.
  assert (Hloop : store (run_ready (snd (end_session env sid srv))) =
                  snd (run_journal_pipeline env sid (store (run_ready srv)))).
  { unfold end_session, run_ready. simpl. by rewrite fold_left_app. }
  split; [apply processing_response_lookup |].
  split; [reflexivity |]. split; [reflexivity |]. split; [exact Hloop |].
  split; [reflexivity |]. split.
  - rewrite Hloop.
    destruct (get_journal_after_run env sid (store (run_ready srv)))
      as (entry & Hentry & Hshape & Hpoll & Hstatus & _ & Hother).
    by exists entry.
  - unfold end_session. simpl. by rewrite <- app_assoc.
Qed.

(** X7: [query_llm] never raises.  Its answer carries the session id and
    either the text of the backend under [response] or the message of the
    exception under [error], never both; the journal cache is not
    touched. *)
Theorem query_llm_never_raises env sid (user_input : string)
    (context : list pydict) st :
  exists (resp : pydict) (st' : state W),
    query_llm env sid user_input context st = (Ok resp, st') /\
    journal_cache st' = journal_cache st /\
    resp !! "session_id" = Some (PyStr sid) /\
    ((exists (r : string),
         generate_response env user_input context (world st) =
         (Ok r, world st') /\
         resp !! "response" = Some (PyStr r) /\ resp !! "error" = None) \/
     (exists (e : exc),
         generate_response env user_input context (world st) =
         (Raise e, world st') /\
         resp !! "error" = Some (PyStr (str_of e)) /\
         resp !! "response" = None)).
Proof.
  destruct st as [w c].
  unfold query_llm, try_except, bind, call, ret. simpl.
  destruct (generate_response env user_input context w) as [[r | e] w'];
    simpl; eexists _, _; (split; [reflexivity |]); simpl;
    (split; [reflexivity |]); (split; [by simplify_map_eq |]).
  - left. exists r. repeat split; by simplify_map_eq.
  - right. exists e. repeat split; by simplify_map_eq.
Qed.

End PipelineMore.

Lemma run_journal_pipeline_succeeds_witness :
  exists (node_ids : list string) (w1 : list string) (events : list event)
         (w2 : list string) (sims : list (Q * string)) (w3 : list string)
         (response : string) (w4 : list string),
    process_session demo_env "session-a" (world demo_state) =
    (Ok node_ids, w1) /\
    get_raw_events_by_session demo_env "session-a" w1 = (Ok events, w2) /\
    search_similar demo_env (full_doc events) 3 w2 = (Ok sims, w3) /\
    generate_response demo_env
      (prompt (full_doc events) (remedy_context sims)) [] w3 =
    (Ok response, w4) /\
    run_journal_pipeline demo_env "session-a" demo_state =
    (Ok tt,
     State w4
       (<["session-a" :=
            success_entry response (related_memory (remedy_context sims))]>
          (journal_cache demo_state))) /\
    success_entry response (related_memory (remedy_context sims))
      !! "summary_action" = Some (PyStr response) /\
    success_entry response (related_memory (remedy_context sims))
      !! "related_memory" = Some (related_memory (remedy_context sims)) /\
    success_entry response (related_memory (remedy_context sims))
      !! "error" = None.
Proof.
  apply (run_journal_pipeline_succeeds demo_env "session-a" demo_state).
  - intros s w. by eexists _, _.
  - intros s w. by eexists _, _.
  - intros q k w. by eexists _, _.
  - intros p h w. by eexists _, _.
Defined.


Lemma poll_after_run_witness :
  fst (get_journal "session-a"
         (snd (run_journal_pipeline failing_env "session-b"
                 (snd (run_journal_pipeline demo_env "session-a" demo_state))))) =
  fst (get_journal "session-a"
         (snd (run_journal_pipeline demo_env "session-a" demo_state))).
Proof.
  apply (proj2 (poll_after_run demo_env "session-a" demo_state)).
  discriminate.
Defined.

(** ** [store_event]: the event id *)

Lemma digits_no_underscore (d : Decimal.uint) (pre post : string) :
  NilEmpty.string_of_uint d <> pre +:+ "_" +:+ post.
Proof.
  revert pre; induction d as [| d IH | d IH | d IH | d IH | d IH
                              | d IH | d IH | d IH | d IH | d IH];
    intros [| c pre]; simpl;
    change ("" +:+ "_" +:+ post) with (String "_" post);
    rewrite ?append_cons; try discriminate;
    intros Heq; injection Heq as _ Heq; by apply (IH pre).
Qed.

Lemma str_of_nat_inj (n m : nat) : str_of_nat n = str_of_nat m -> n = m.
Proof.
  unfold str_of_nat. intros Heq.
  apply DecimalNat.Unsigned.to_uint_inj.
  pose proof (NilEmpty.usu (Nat.to_uint n)) as Hn.
  rewrite Heq, NilEmpty.usu in Hn. congruence.
Qed.

(** A string ends in one way only with an underscore and digits. *)
Lemma split_at_last_underscore (s1 s2 : string) (d1 d2 : Decimal.uint) :
  s1 +:+ "_" +:+ NilEmpty.string_of_uint d1 =
  s2 +:+ "_" +:+ NilEmpty.string_of_uint d2 ->
  s1 = s2 /\ NilEmpty.string_of_uint d1 = NilEmpty.string_of_uint d2.
Proof.
  revert s2; induction s1 as [| c1 s1 IH]; intros [| c2 s2] Heq.
  - change ("" +:+ "_" +:+ ?x) with (String "_" x) in Heq.
    by injection Heq as ->.
  - change ("" +:+ "_" +:+ ?x) with (String "_" x) in Heq.
    rewrite append_cons in Heq. injection Heq as _ Heq.
    by apply digits_no_underscore in Heq.
  - change ("" +:+ "_" +:+ ?x) with (String "_" x) in Heq.
    rewrite append_cons in Heq. injection Heq as _ Heq.
    symmetry in Heq. by apply digits_no_underscore in Heq.
  - rewrite !append_cons in Heq. injection Heq as -> Heq.
    destruct (IH s2 Heq) as [-> Hd]. done.
Qed.

Lemma event_id_inj (sid1 text1 sid2 text2 : string) :
  event_id sid1 text1 = event_id sid2 text2 <->
  sid1 = sid2 /\ String.length text1 = String.length text2.
Proof.
  split.
  - unfold event_id. intros Heq. apply (inj (String.app "event_")) in Heq.
    apply split_at_last_underscore in Heq as [-> Hd].
    split; [reflexivity |]. by apply str_of_nat_inj.
  - intros [-> Hlen]. unfold event_id. by rewrite Hlen.
Qed.

(** X8: [store_event] stores nothing: it returns normally and leaves the
    state as it was.  The id it hands out is made of the session id and
    the length of the text: two requests get the same id exactly when they
    agree on both, whatever their texts, sources and metadata are. *)
Theorem store_event_id {W : Type}
    (sid1 source1 text1 : string) (metadata1 : pydict)
    (sid2 source2 text2 : string) (metadata2 : pydict) (st1 st2 : state W) :
  exists r1 r2 : pydict,
    store_event sid1 source1 text1 metadata1 st1 = (Ok r1, st1) /\
    store_event sid2 source2 text2 metadata2 st2 = (Ok r2, st2) /\
    r1 !! "event_id" = Some (PyStr (event_id sid1 text1)) /\
    r1 !! "status" = Some (PyStr "stored") /\
    (r1 !! "event_id" = r2 !! "event_id" <->
     sid1 = sid2 /\ String.length text1 = String.length text2).
Proof.
  assert (Hid : forall id : string,
             (<["message" := PyStr "Event stored (mock mode)"]>
                (<["status" := PyStr "stored"]>
                   (<["event_id" := PyStr id]> (∅ : pydict)))) !! "event_id" =
             Some (PyStr id)) by (intros id; by simplify_map_eq).
  eexists _, _. split; [reflexivity |]. split; [reflexivity |].
  split; [apply Hid |]. split; [by simplify_map_eq |].
  rewrite !Hid, <- event_id_inj. split; intros Heq; congruence.
Qed.

Example event_id_collision :
  event_id "s1" "hello world" = "event_s1_11" /\
  event_id "s1" "hello world" = event_id "s1" "HELLO-WORLD".
Proof. split; reflexivity. Qed.

(** ** [asr]: which recording is transcribed, and the message *)

Lemma lstrip_starts_clean (s : string) : starts_clean (lstrip s) = true.
Proof.
  induction s as [| c s IH]; [reflexivity |].
  simpl. destruct (is_space c) eqn:Hc; [exact IH |]. simpl. by rewrite Hc.
Qed.

Lemma lstrip_clean (s : string) : starts_clean s = true -> lstrip s = s.
Proof.
  destruct s as [| c s]; [reflexivity |]. simpl.
  destruct (is_space c); [discriminate | reflexivity].
Qed.

Lemma rstrip_starts_clean (s : string) :
  starts_clean s = true -> starts_clean (rstrip s) = true.
Proof.
  destruct s as [| c s]; [reflexivity |]. simpl. intros Hc.
  destruct (rstrip s); [| simpl; exact Hc].
  destruct (is_space c) eqn:Hsp; [reflexivity | simpl; by rewrite Hsp].
Qed.

Lemma rstrip_cons (c : ascii) (s : string) :
  rstrip (String c s) =
  match rstrip s with
  | EmptyString => if is_space c then EmptyString else String c EmptyString
  | String _ _ as r => String c r
  end.
Proof. reflexivity. Qed.

Lemma rstrip_idem (s : string) : rstrip (rstrip s) = rstrip s.
Proof.
  induction s as [| c s IH]; [reflexivity |]. rewrite rstrip_cons.
  destruct (rstrip s) as [| c' r] eqn:Hr.
  - destruct (is_space c) eqn:Hc; [reflexivity |].
    rewrite rstrip_cons. simpl. by rewrite Hc.
  - rewrite rstrip_cons, IH. reflexivity.
Qed.

Lemma strip_clean (s : string) :
  lstrip (strip s) = strip s /\ rstrip (strip s) = strip s.
Proof.
  unfold strip. split.
  - apply lstrip_clean, rstrip_starts_clean, lstrip_starts_clean.
  - apply rstrip_idem.
Qed.

Section Asr.

Context {W : Type}.
Implicit Types (aenv : audio_env W) (st : state W).

Lemma with_mtime_cache aenv (files : list string) st :
  journal_cache (snd (with_mtime aenv files st)) = journal_cache st.
Proof.
  revert st; induction files as [| x rest IH]; intros st; [reflexivity |].
  simpl. unfold bind at 1, call.
  destruct (getmtime aenv (path_join aenv (recordings_dir aenv) x) (world st))
    as [[k | e] w1]; simpl; [| reflexivity].
  unfold bind. specialize (IH (State w1 (journal_cache st))).
  destruct (with_mtime aenv rest (State w1 (journal_cache st)))
    as [[ks | e] st2]; simpl in *; exact IH.
Qed.

Lemma with_mtime_read aenv (mtime : string -> Q) (files : list string) st :
  (forall f w,
      getmtime aenv (path_join aenv (recordings_dir aenv) f) w =
      (Ok (mtime f), w)) ->
  with_mtime aenv files st = (Ok ((fun f => (mtime f, f)) <$> files), st).
Proof.
  intros Hread. induction files as [| x rest IH]; [reflexivity |].
  simpl. unfold bind at 1, call. rewrite Hread. simpl.
  destruct st as [w c]. simpl in *. unfold bind. by rewrite IH.
Qed.

Lemma elem_of_insert_desc (kx y : Q * string) (sorted : list (Q * string)) :
  y ∈ insert_desc kx sorted <-> y = kx \/ y ∈ sorted.
Proof.
  induction sorted as [| ky rest IH]; simpl.
  - rewrite list_elem_of_singleton, elem_of_nil. tauto.
  - destruct (Qle_bool (fst ky) (fst kx)).
    + by rewrite elem_of_cons.
    + rewrite !elem_of_cons, IH. tauto.
Qed.

Lemma elem_of_sort_desc (y : Q * string) (keyed : list (Q * string)) :
  y ∈ sort_desc keyed <-> y ∈ keyed.
Proof.
  induction keyed as [| kx rest IH]; [reflexivity |].
  simpl. rewrite elem_of_insert_desc, elem_of_cons, IH. tauto.
Qed.

(** The first element of the sorted list has the largest key. *)
Lemma sort_desc_head (keyed : list (Q * string)) :
  match sort_desc keyed with
  | [] => keyed = []
  | top :: _ => forall y, y ∈ keyed -> (fst y <= fst top)%Q
  end.
Proof.
  induction keyed as [| kx rest IH]; [reflexivity |].
  simpl. destruct (sort_desc rest) as [| ky sorted] eqn:Hsorted.
  - subst rest. simpl. intros y Hy. apply list_elem_of_singleton in Hy as ->.
    apply Qle_refl.
  - simpl. destruct (Qle_bool (fst ky) (fst kx)) eqn:Hle.
    + apply Qle_bool_iff in Hle. intros y Hy.
      apply elem_of_cons in Hy as [-> | Hy]; [apply Qle_refl |].
      eapply Qle_trans; [by apply IH | exact Hle].
    + assert (fst kx < fst ky)%Q as Hlt.
      { apply Qnot_le_lt. intros Hle'. apply Qle_bool_iff in Hle'. congruence. }
      intros y Hy. apply elem_of_cons in Hy as [-> | Hy];
        [by apply Qlt_le_weak | by apply IH].
Qed.

(** X9: when the recordings directory exists, its listing has a [.wav]
    name and the modification times can be read, [asr] sends to
    [process_audio] a [.wav] file of the listing that no other [.wav] file
    of the listing is newer than.  What [process_audio] raises goes
    through the handler: there is no [try] around it. *)
Theorem asr_transcribes_newest aenv (mtime : string -> Q) st
    (names : list string) (w1 : W) :
  path_exists aenv (recordings_dir aenv) (world st) = true ->
  listdir aenv (recordings_dir aenv) (world st) = (Ok names, w1) ->
  (exists f, f ∈ names /\ endswith f ".wav" = true) ->
  (forall f w,
      getmtime aenv (path_join aenv (recordings_dir aenv) f) w =
      (Ok (mtime f), w)) ->
  exists newest : string,
    newest ∈ names /\
    endswith newest ".wav" = true /\
    (forall f, f ∈ names -> endswith f ".wav" = true ->
               (mtime f <= mtime newest)%Q) /\
    asr aenv st =
    match
      process_audio aenv (path_join aenv (recordings_dir aenv) newest) w1
    with
    | (Ok result, w2) =>
        (Ok (<["message" :=
                 PyStr (strip (join " " (segment_text <$> result)))]> ∅),
         State w2 (journal_cache st))
    | (Raise e, w2) => (Raise e, State w2 (journal_cache st))
    end.
Proof.
  intros Hexists Hlist (f0 & Hf0 & Hwav0) Hread. destruct st as [w c].
  simpl in *. unfold asr. simpl. rewrite Hexists.
  unfold bind at 1, call. simpl. rewrite Hlist. simpl.
  set (wav_files := List.filter (fun f => endswith f ".wav") names).
  assert (Hwavs : forall f, f ∈ wav_files <->
                             f ∈ names /\ endswith f ".wav" = true).
  { intros f. unfold wav_files. rewrite !list_elem_of_In.
    exact (List.filter_In (fun f => endswith f ".wav") f names). }
  assert (Hf0' : f0 ∈ wav_files) by by apply Hwavs.
  destruct wav_files as [| f1 rest] eqn:Hfiles; [by apply elem_of_nil in Hf0' |].
  rewrite <- Hfiles in *. clear Hfiles f1 rest.
  unfold bind at 1. rewrite (with_mtime_read aenv mtime wav_files _ Hread).
  pose proof (sort_desc_head ((fun f => (mtime f, f)) <$> wav_files)) as Hhead.
  destruct (sort_desc ((fun f => (mtime f, f)) <$> wav_files))
    as [| [k newest] sorted] eqn:Hsorted.
  { apply fmap_nil_inv in Hhead. rewrite Hhead in Hf0'.
    by apply elem_of_nil in Hf0'. }
  assert (Hin : (k, newest) ∈ (fun f => (mtime f, f)) <$> wav_files).
  { apply elem_of_sort_desc. rewrite Hsorted. apply elem_of_cons. by left. }
  apply list_elem_of_fmap in Hin as (f & Heq & Hf). injection Heq as -> ->.
  exists f. apply Hwavs in Hf as [Hf Hwav].
  split; [exact Hf |]. split; [exact Hwav |]. split.
  - intros g Hg Hgwav.
    apply (Hhead (mtime g, g)). apply list_elem_of_fmap. exists g.
    split; [reflexivity |]. by apply Hwavs.
  - unfold bind, call. simpl.
    destruct (process_audio aenv (path_join aenv (recordings_dir aenv) f) w1)
      as [[result | e] w2]; reflexivity.
Qed.

(** X10: whenever [asr] returns, its answer has the one key [message],
    and the message neither starts nor ends with white space: stripping
    it again on either side changes nothing.  The journal cache is left
    as it was. *)
Theorem asr_message_stripped aenv st (resp : pydict) (st' : state W) :
  asr aenv st = (Ok resp, st') ->
  exists m : string,
    resp = <["message" := PyStr m]> ∅ /\
    lstrip m = m /\ rstrip m = m /\
    journal_cache st' = journal_cache st.
Proof.
  unfold asr. destruct (path_exists aenv (recordings_dir aenv) (world st)).
  2:{ intros [= <- <-]. by eexists. }
  unfold bind at 1, call.
  destruct (listdir aenv (recordings_dir aenv) (world st)) as [[names | e] w1];
    [| discriminate]. simpl.
  destruct (List.filter (fun f => endswith f ".wav") names) as [| f1 rest].
  { intros [= <- <-]. by eexists. }
  unfold bind at 1.
  pose proof (with_mtime_cache aenv (f1 :: rest) (State w1 (journal_cache st)))
    as Hcache.
  destruct (with_mtime aenv (f1 :: rest) (State w1 (journal_cache st)))
    as [[keyed | e] st2]; [| discriminate]. simpl in Hcache.
  destruct (sort_desc keyed) as [| [k newest] sorted]; [discriminate |].
  unfold bind, call.
  destruct (process_audio aenv (path_join aenv (recordings_dir aenv) newest)
              (world st2)) as [[result | e] w3]; [| discriminate].
  unfold ret. intros [= <- <-]. eexists. split; [reflexivity |].
  destruct (strip_clean (join " " (segment_text <$> result))) as [Hl Hr].
  by rewrite Hl, Hr.
Qed.

End Asr.

Lemma asr_transcribes_newest_witness :
  exists newest : string,
    newest ∈ ["memo.wav"; "notes.txt"; "standup-monday.wav"] /\
    endswith newest ".wav" = true /\
    (forall f, f ∈ ["memo.wav"; "notes.txt"; "standup-monday.wav"] ->
               endswith f ".wav" = true ->
               (demo_mtime f <= demo_mtime newest)%Q) /\
    asr demo_audio_env (State [] ∅) =
    match
      process_audio demo_audio_env
        (path_join demo_audio_env (recordings_dir demo_audio_env) newest) []
    with
    | (Ok result, w2) =>
        (Ok (<["message" :=
                 PyStr (strip (join " " (segment_text <$> result)))]> ∅),
         State w2 ∅)
    | (Raise e, w2) => (Raise e, State w2 ∅)
    end.
Proof.
  apply (asr_transcribes_newest demo_audio_env demo_mtime (State [] ∅)
           ["memo.wav"; "notes.txt"; "standup-monday.wav"] []).
  - reflexivity.
  - reflexivity.
  - exists "memo.wav". split; [apply list_elem_of_here | reflexivity].
  - intros f w. reflexivity.
Defined.

Lemma asr_message_stripped_witness :
  exists m : string,
    (<["message" := PyStr "hello world"]> ∅ : pydict) =
    <["message" := PyStr m]> ∅ /\
    lstrip m = m /\ rstrip m = m /\
    journal_cache
      (State ["/home/u/EdgeElite/recordings/standup-monday.wav"] ∅) =
    journal_cache (State ([] : list string) ∅).
Proof.
  apply (asr_message_stripped demo_audio_env (State [] ∅)).
  vm_compute. reflexivity.
Defined.

(** ** [ocr.py] and [capture] *)

Section OcrCapture.

Context {W session app : Type}.
Implicit Types (ort : Ocr.ort_env W session app) (st : state W).

(** When it returns, [process_image] returns [None]. *)
Lemma ocr_process_image_returns_none_aux ort (image_path : string) st
    (v : pyval) (st' : state W) :
  Ocr.process_image ort image_path st = (Ok v, st') ->
  v = PyNone /\ journal_cache st' = journal_cache st.
Proof.
  destruct st as [w c].
  unfold Ocr.process_image, Ocr.run_trocr, Ocr.setup_trocr_sessions,
    bind, call, ret.
  simpl.
  destruct (Ocr.InferenceSession ort (Ocr.encoder_model_path ort) w)
    as [[enc | e] w1]; simpl; [| discriminate].
  destruct (Ocr.InferenceSession ort (Ocr.decoder_model_path ort) w1)
    as [[dec | e] w2]; simpl; [| discriminate].
  destruct (Ocr.TrocrApp ort enc dec w2) as [[trocr | e] w3]; simpl;
    [| discriminate].
  by intros [= <- <-].
Qed.

(** X11: [process_image] of [ocr.py] recognises nothing: when it returns,
    it returns [None]; it builds the encoder session, then the decoder
    session, then the [TrocrApp], and the path of the image plays no part
    in what it does. *)
Theorem ocr_process_image_returns_none ort :
  (forall (image_path : string) st (v : pyval) (st' : state W),
      Ocr.process_image ort image_path st = (Ok v, st') ->
      v = PyNone /\
      journal_cache st' = journal_cache st /\
      exists (enc dec : session) (trocr : app) (w1 w2 : W),
        Ocr.InferenceSession ort (Ocr.encoder_model_path ort) (world st) =
        (Ok enc, w1) /\
        Ocr.InferenceSession ort (Ocr.decoder_model_path ort) w1 =
        (Ok dec, w2) /\
        Ocr.TrocrApp ort enc dec w2 = (Ok trocr, world st')) /\
  (forall (path1 path2 : string) st,
      Ocr.process_image ort path1 st = Ocr.process_image ort path2 st).
Proof.
  split; [| reflexivity].
  intros image_path [w c] v st'.
  unfold Ocr.process_image, Ocr.run_trocr, Ocr.setup_trocr_sessions,
    bind, call, ret.
  simpl.
  destruct (Ocr.InferenceSession ort (Ocr.encoder_model_path ort) w)
    as [[enc | e] w1] eqn:Henc; simpl; [| discriminate].
  destruct (Ocr.InferenceSession ort (Ocr.decoder_model_path ort) w1)
    as [[dec | e] w2] eqn:Hdec; simpl; [| discriminate].
  destruct (Ocr.TrocrApp ort enc dec w2) as [[trocr | e] w3] eqn:Happ; simpl;
    [| discriminate].
  intros [= <- <-]. split; [reflexivity |]. split; [reflexivity |].
  by exists enc, dec, trocr, w1, w2.
Qed.


End OcrCapture.

Lemma ocr_process_image_returns_none_witness :
  PyNone = PyNone /\
  journal_cache
    (State ["TrocrApp"; "models/ocr/trocr-trocrdecoder.onnx";
            "models/ocr/trocr-trocrencoder.onnx"] ∅) =
  journal_cache (State ([] : list string) ∅) /\
  exists (enc dec trocr : unit) (w1 w2 : list string),
    Ocr.InferenceSession demo_ort (Ocr.encoder_model_path demo_ort) [] =
    (Ok enc, w1) /\
    Ocr.InferenceSession demo_ort (Ocr.decoder_model_path demo_ort) w1 =
    (Ok dec, w2) /\
    Ocr.TrocrApp demo_ort enc dec w2 =
    (Ok trocr,
     ["TrocrApp"; "models/ocr/trocr-trocrdecoder.onnx";
      "models/ocr/trocr-trocrencoder.onnx"]).
Proof.
  apply (proj1 (ocr_process_image_returns_none demo_ort)
           "screenshot.png" (State [] ∅) PyNone
           (State ["TrocrApp"; "models/ocr/trocr-trocrdecoder.onnx";
                   "models/ocr/trocr-trocrencoder.onnx"] ∅)).
  reflexivity.
Defined.


(** ** [download_llama.py] *)

Section Download.

Import DownloadLlama.

Context {W tokenizer model : Type}.
Implicit Types (hub : hub_env W tokenizer model) (st : state W).

Lemma is_yes_iff (response : string) :
  is_yes response = true <-> response = "y" \/ response = "yes".
Proof. unfold is_yes. by rewrite orb_true_iff, !String.eqb_eq. Qed.

Lemma test_llama_download_total hub st :
  exists (b : bool) (st' : state W),
    test_llama_download hub st = (Ok b, st') /\
    journal_cache st' = journal_cache st.
Proof.
  destruct st as [w c].
  unfold test_llama_download, try_except, bind, call, ret. simpl.
  destruct (probe_tokenizer hub w) as [[tok | e] w1]; simpl;
    [| by eexists _, _].
  destruct (probe_model hub w1) as [[mdl | e] w2]; simpl; by eexists _, _.
Qed.

(** X13: when the model directory is already there,
    [download_llama_with_hub] reports success at once: after creating the
    [models] directory and finding the model directory it calls nothing,
    neither the login nor a download, whatever the directory holds. *)
Theorem download_skipped_when_present hub st (w1 w2 : W) :
  mkdir_models hub (world st) = (Ok tt, w1) ->
  model_path_exists hub w1 = (Ok true, w2) ->
  download_llama_with_hub hub st = (Ok true, State w2 (journal_cache st)).
Proof.
  intros Hmk Hex. destruct st as [w c].
  unfold download_llama_with_hub, bind, call, ret. simpl in *.
  rewrite Hmk. simpl. by rewrite Hex.
Qed.

(** X14: what [download_llama_with_hub] returns, step by step.  An
    exception of [mkdir] or of [exists], which stand before the [try]
    block, leaves the function.  When the model directory is missing, the
    first of the five steps that raises (login, loading the tokenizer,
    saving it, loading the model, saving it) makes the function return
    [False] with the world as that step left it, and no later step is
    called; it returns [True] exactly when all five have returned. *)
Theorem download_result hub st :
  (forall (e : exc) (w1 : W),
      mkdir_models hub (world st) = (Raise e, w1) ->
      download_llama_with_hub hub st =
      (Raise e, State w1 (journal_cache st))) /\
  (forall (w1 : W) (e : exc) (w2 : W),
      mkdir_models hub (world st) = (Ok tt, w1) ->
      model_path_exists hub w1 = (Raise e, w2) ->
      download_llama_with_hub hub st =
      (Raise e, State w2 (journal_cache st))) /\
  (forall (w1 w2 : W),
      mkdir_models hub (world st) = (Ok tt, w1) ->
      model_path_exists hub w1 = (Ok false, w2) ->
      (forall (e : exc) (w3 : W),
          login hub w2 = (Raise e, w3) ->
          download_llama_with_hub hub st =
          (Ok false, State w3 (journal_cache st))) /\
      (forall (w3 : W) (e : exc) (w4 : W),
          login hub w2 = (Ok tt, w3) ->
          tokenizer_from_pretrained hub w3 = (Raise e, w4) ->
          download_llama_with_hub hub st =
          (Ok false, State w4 (journal_cache st))) /\
      (forall (w3 : W) (tok : tokenizer) (w4 : W) (e : exc) (w5 : W),
          login hub w2 = (Ok tt, w3) ->
          tokenizer_from_pretrained hub w3 = (Ok tok, w4) ->
          tokenizer_save_pretrained hub tok w4 = (Raise e, w5) ->
          download_llama_with_hub hub st =
          (Ok false, State w5 (journal_cache st))) /\
      (forall (w3 : W) (tok : tokenizer) (w4 w5 : W) (e : exc) (w6 : W),
          login hub w2 = (Ok tt, w3) ->
          tokenizer_from_pretrained hub w3 = (Ok tok, w4) ->
          tokenizer_save_pretrained hub tok w4 = (Ok tt, w5) ->
          model_from_pretrained hub w5 = (Raise e, w6) ->
          download_llama_with_hub hub st =
          (Ok false, State w6 (journal_cache st))) /\
      (forall (w3 : W) (tok : tokenizer) (w4 w5 : W) (mdl : model) (w6 : W)
              (e : exc) (w7 : W),
          login hub w2 = (Ok tt, w3) ->
          tokenizer_from_pretrained hub w3 = (Ok tok, w4) ->
          tokenizer_save_pretrained hub tok w4 = (Ok tt, w5) ->
          model_from_pretrained hub w5 = (Ok mdl, w6) ->
          model_save_pretrained hub mdl w6 = (Raise e, w7) ->
          download_llama_with_hub hub st =
          (Ok false, State w7 (journal_cache st))) /\
      (forall (w3 : W) (tok : tokenizer) (w4 w5 : W) (mdl : model) (w6 w7 : W),
          login hub w2 = (Ok tt, w3) ->
          tokenizer_from_pretrained hub w3 = (Ok tok, w4) ->
          tokenizer_save_pretrained hub tok w4 = (Ok tt, w5) ->
          model_from_pretrained hub w5 = (Ok mdl, w6) ->
          model_save_pretrained hub mdl w6 = (Ok tt, w7) ->
          download_llama_with_hub hub st =
          (Ok true, State w7 (journal_cache st)))).
Proof.
  destruct st as [w c].
  unfold download_llama_with_hub, try_except, bind, call, ret. simpl.
  split; [| split].
  - by intros e w1 ->.
  - intros w1 e w2 -> Hex. simpl. by rewrite Hex.
  - intros w1 w2 -> Hex. simpl. rewrite Hex. simpl. repeat split.
    + by intros e w3 ->.
    + intros w3 e w4 -> Htok. simpl. by rewrite Htok.
    + intros w3 tok w4 e w5 -> Htok Hsave. simpl. rewrite Htok. simpl.
      by rewrite Hsave.
    + intros w3 tok w4 w5 e w6 -> Htok Hsave Hmdl. simpl. rewrite Htok. simpl.
      rewrite Hsave. simpl. by rewrite Hmdl.
    + intros w3 tok w4 w5 mdl w6 e w7 -> Htok Hsave Hmdl Hmsave. simpl.
      rewrite Htok. simpl. rewrite Hsave. simpl. rewrite Hmdl. simpl.
      by rewrite Hmsave.
    + intros w3 tok w4 w5 mdl w6 w7 -> Htok Hsave Hmdl Hmsave. simpl.
      rewrite Htok. simpl. rewrite Hsave. simpl. rewrite Hmdl. simpl.
      by rewrite Hmsave.
Qed.

(** X15: every run of [main].  The access test never raises, and answers
    [True] only when both probes have returned.  If the test fails,
    [main] ends there.  If it passes, the line is read: an exception of
    [input] leaves [main] and nothing is downloaded; a line that, put in
    lower case and stripped, is neither [y] nor [yes] ends [main] with
    nothing called after the reading; for [y] or [yes] [main] does what
    [download_llama_with_hub] does from there. *)
Theorem main_downloads_only_on_yes hub st :
  (exists (accessible : bool) (st1 : state W),
      test_llama_download hub st = (Ok accessible, st1)) /\
  (forall (st1 : state W),
      test_llama_download hub st = (Ok true, st1) ->
      exists (tok : tokenizer) (w1 : W) (mdl : model),
        probe_tokenizer hub (world st) = (Ok tok, w1) /\
        probe_model hub w1 = (Ok mdl, world st1)) /\
  (forall (st1 : state W),
      test_llama_download hub st = (Ok false, st1) ->
      main hub st = (Ok tt, st1)) /\
  (forall (st1 : state W) (e : exc) (w2 : W),
      test_llama_download hub st = (Ok true, st1) ->
      input hub (world st1) = (Raise e, w2) ->
      main hub st = (Raise e, State w2 (journal_cache st1))) /\
  (forall (st1 : state W) (line : string) (w2 : W),
      test_llama_download hub st = (Ok true, st1) ->
      input hub (world st1) = (Ok line, w2) ->
      (strip (lower line) <> "y" /\ strip (lower line) <> "yes" ->
       main hub st = (Ok tt, State w2 (journal_cache st1))) /\
      (strip (lower line) = "y" \/ strip (lower line) = "yes" ->
       main hub st =
       match
         download_llama_with_hub hub (State w2 (journal_cache st1))
       with
       | (Ok _, st3) => (Ok tt, st3)
       | (Raise e, st3) => (Raise e, st3)
       end)).
Proof.
  split; [| split; [| split; [| split]]].
  - destruct (test_llama_download_total hub st) as (b & st1 & Htest & _).
    by exists b, st1.
  - intros st1. destruct st as [w c].
    unfold test_llama_download, try_except, bind, call, ret. simpl.
    destruct (probe_tokenizer hub w) as [[tok | e] w1]; simpl;
      [| discriminate].
    destruct (probe_model hub w1) as [[mdl | e] w2] eqn:Hmdl; simpl;
      [| discriminate].
    intros [= <-]. by exists tok, w1, mdl.
  - intros st1 Htest. unfold main, bind. by rewrite Htest.
  - intros st1 e w2 Htest Hin. unfold main. unfold bind at 1. rewrite Htest.
    unfold bind at 1. unfold call. by rewrite Hin.
  - intros st1 line w2 Htest Hin.
    assert (Hmain : main hub st =
              (if is_yes (strip (lower line))
               then bind (download_llama_with_hub hub) (fun _ => ret tt)
               else ret tt) (State w2 (journal_cache st1))).
    { unfold main. unfold bind at 1. rewrite Htest.
      unfold bind at 1. unfold call. by rewrite Hin. }
    rewrite Hmain. split.
    + intros [Hy Hyes].
      destruct (is_yes (strip (lower line))) eqn:Hyn; [| reflexivity].
      apply is_yes_iff in Hyn. tauto.
    + intros Hyes. apply is_yes_iff in Hyes. rewrite Hyes.
      unfold bind.
      destruct (download_llama_with_hub hub (State w2 (journal_cache st1)))
        as [[b | e] st3]; reflexivity.
Qed.

End Download.

Lemma download_skipped_when_present_witness :
  DownloadLlama.download_llama_with_hub demo_hub
    (State ["tokenizer.save_pretrained"] ∅) =
  (Ok true, State ["mkdir"; "tokenizer.save_pretrained"] ∅).
Proof.
  apply (download_skipped_when_present demo_hub
           (State ["tokenizer.save_pretrained"] ∅)
           ["mkdir"; "tokenizer.save_pretrained"]
           ["mkdir"; "tokenizer.save_pretrained"]);
    reflexivity.
Defined.

Lemma download_result_witness :
  DownloadLlama.download_llama_with_hub demo_hub (State [] ∅) =
  (Ok false,
   State ["model"; "tokenizer.save_pretrained"; "tokenizer"; "login"; "mkdir"]
     ∅).
Proof.
  eapply (proj1 (proj2 (proj2 (proj2
            (proj2 (proj2 (download_result demo_hub (State [] ∅)))
               ["mkdir"] ["mkdir"] eq_refl eq_refl)))));
    reflexivity.
Defined.

Lemma main_downloads_only_on_yes_witness :
  DownloadLlama.main demo_hub (State [] ∅) =
  match
    DownloadLlama.download_llama_with_hub demo_hub
      (State ["input"; "probe model"; "probe tokenizer"] ∅)
  with
  | (Ok _, st3) => (Ok tt, st3)
  | (Raise e, st3) => (Raise e, st3)
  end.
Proof.
  apply (proj2
           (proj2 (proj2 (proj2 (proj2
              (main_downloads_only_on_yes demo_hub (State [] ∅)))))
              (State ["probe model"; "probe tokenizer"] ∅) "  YES "
              ["input"; "probe model"; "probe tokenizer"] eq_refl eq_refl)).
  right. reflexivity.
Defined.

(** A download that breaks after the tokenizer was saved answers [False];
    the run after it finds the directory and answers [True], with no
    model saved. *)
Example download_twice :
  DownloadLlama.download_llama_with_hub demo_hub (State [] ∅) =
  (Ok false,
   State ["model"; "tokenizer.save_pretrained"; "tokenizer"; "login"; "mkdir"]
     ∅) /\
  fst (DownloadLlama.download_llama_with_hub demo_hub
         (snd (DownloadLlama.download_llama_with_hub demo_hub (State [] ∅)))) =
  Ok true.
Proof. split; vm_compute; reflexivity. Qed.

(** ** The session document of two runs of events *)

Lemma join_app (sep : string) (l1 l2 : list string) :
  l1 <> [] -> l2 <> [] ->
  join sep (l1 ++ l2) = join sep l1 +:+ sep +:+ join sep l2.
Proof.
  intros Hl1 Hl2. induction l1 as [| x l1 IH]; [done |].
  destruct l1 as [| x' l1].
  - destruct l2 as [| y l2]; [done | reflexivity].
  - change (join sep ((x :: x' :: l1) ++ l2))
      with (x +:+ sep +:+ join sep ((x' :: l1) ++ l2)).
    rewrite IH by done.
    change (join sep (x :: x' :: l1)) with (x +:+ sep +:+ join sep (x' :: l1)).
    by rewrite !append_assoc.
Qed.

(** X16: the document of two lists of events put end to end is the two
    documents with a newline between them when each list has an [ocr] or
    [asr] event, and the document of the other list when one has none;
    a list without such events has the empty document. *)
Theorem full_doc_app (l1 l2 : list event) :
  full_doc (l1 ++ l2) =
  match doc_texts l1, doc_texts l2 with
  | [], _ => full_doc l2
  | _ :: _, [] => full_doc l1
  | _ :: _, _ :: _ => full_doc l1 +:+ nl +:+ full_doc l2
  end /\
  ((forall ev, ev ∈ l1 -> source ev <> "ocr" /\ source ev <> "asr") ->
   full_doc l1 = "").
Proof.
  split.
  - unfold full_doc. rewrite doc_texts_app.
    destruct (doc_texts l1) as [| x t1] eqn:H1; [reflexivity |].
    destruct (doc_texts l2) as [| y t2] eqn:H2.
    + by rewrite app_nil_r.
    + by rewrite join_app.
  - intros Hnone. unfold full_doc. rewrite doc_texts_filter.
    induction l1 as [| ev l1 IH]; [reflexivity |].
    rewrite filter_cons, decide_False.
    + apply IH. intros ev' Hev'. apply Hnone. by apply elem_of_cons; right.
    + destruct (Hnone ev) as [Hocr Hasr]; [by apply elem_of_cons; left |].
      tauto.
Qed.

Lemma full_doc_app_witness :
  full_doc [Event "keyboard" "ctrl-c"; Event "mouse" "click"] = "".
Proof.
  apply (proj2 (full_doc_app [Event "keyboard" "ctrl-c"; Event "mouse" "click"]
                  [])).
  intros ev Hev.
  apply elem_of_cons in Hev as [-> | Hev]; [by split |].
  apply list_elem_of_singleton in Hev as ->. by split.
Defined.
